(** * lyft_rides: the OAuth 2.0 credential lifecycle and the error adapter

    A shallow embedding of [lyft_rides/session.py], [lyft_rides/auth.py],
    [lyft_rides/client.py], [lyft_rides/errors.py],
    [lyft_rides/utils/handlers.py] and of the credential store of
    [examples/], followed by the properties proved about them. *)

From Stdlib Require Import ZArith Ascii String List Lia Bool.
From stdpp Require Import base option list gmap strings.

Set Warnings "-register-all".

Local Open Scope string_scope.
Local Open Scope list_scope.
Local Open Scope Z_scope.

(** ** Python values *)

(** What [response.json()] yields, and what callers hand to the client.
    A finite float is the dyadic rational [m * 2^e] it denotes; infinities
    and NaN are not represented.  A dict keeps its items in iteration
    order; [get] finds the first binding of a key. *)
Inductive json : Type :=
| JNull
| JBool (b : bool)
| JInt (n : Z)
| JFloat (m e : Z)
| JStr (s : string)
| JArr (l : list json)
| JObj (kvs : list (string * json)).

(** The built-in exceptions the code can run into. *)
Inductive builtin_error : Type :=
| KeyError (key : string)
| TypeError
| ValueError
| AttributeError
| IndexError.

Module Py.

(** Truth value testing, [bool(v)]. *)
Definition truthy (v : json) : bool :=
  match v with
  | JNull => false
  | JBool b => b
  | JInt n => negb (n =? 0)
  | JFloat m _ => negb (m =? 0)
  | JStr s => negb (String.eqb s "")
  | JArr l => match l with [] => false | _ => true end
  | JObj kvs => match kvs with [] => false | _ => true end
  end.

(** Truth value of a [str], and of a [str] or [None]. *)
Definition str_truthy (s : string) : bool := negb (String.eqb s "").

Definition opt_truthy (o : option string) : bool :=
  match o with
  | None => false
  | Some s => str_truthy s
  end.

(** [d.get(k)]: [None] (here [JNull]) when the key is absent. *)
Fixpoint get (k : string) (d : list (string * json)) : json :=
  match d with
  | [] => JNull
  | (k', v) :: d' => if String.eqb k k' then v else get k d'
  end.

(** [k in d] for a dict [d]. *)
Fixpoint has_key (k : string) (d : list (string * json)) : bool :=
  match d with
  | [] => false
  | (k', _) :: d' => String.eqb k k' || has_key k d'
  end.

(** [needle in hay] for two strings. *)
Fixpoint contains (needle hay : string) : bool :=
  String.prefix needle hay ||
  match hay with
  | EmptyString => false
  | String _ hay' => contains needle hay'
  end.

(** [sep.join(l)]. *)
Fixpoint join (sep : string) (l : list string) : string :=
  match l with
  | [] => ""
  | [s] => s
  | s :: l' => s +:+ sep +:+ join sep l'
  end.

(** [str.isspace] on the code points below 256, the range of [ascii]. *)
Definition isspace (c : ascii) : bool :=
  let n := Z.of_nat (nat_of_ascii c) in
  ((9 <=? n) && (n <=? 13)) || ((28 <=? n) && (n <=? 32))
  || (n =? 133) || (n =? 160).

Definition flush (tok : string) : list string :=
  match tok with
  | EmptyString => []
  | _ => [tok]
  end.

Fixpoint split_from (tok : string) (s : string) : list string :=
  match s with
  | EmptyString => flush tok
  | String c s' =>
      if isspace c then flush tok ++ split_from "" s'
      else split_from (tok +:+ String c "") s'
  end.

(** [s.split()]: the maximal runs of non-whitespace characters. *)
Definition split (s : string) : list string := split_from "" s.

(** [int(v)].  What [int] makes of a string is left to the interpreter:
    [int_of_text s] is the integer it reads, [None] when it raises
    [ValueError]. *)
Definition int (int_of_text : string -> option Z) (v : json)
    : builtin_error + Z :=
  match v with
  | JNull => inl TypeError
  | JBool b => inr (if b then 1 else 0)
  | JInt n => inr n
  | JFloat m e => inr (if 0 <=? e then m * 2 ^ e else Z.quot m (2 ^ (- e)))
  | JStr s => match int_of_text s with Some n => inr n | None => inl ValueError end
  | JArr _ | JObj _ => inl TypeError
  end.

(** [for x in v]: the items a loop over [v] visits. *)
Definition iter (v : json) : builtin_error + list json :=
  match v with
  | JArr l => inr l
  | JObj kvs => inr (map (fun kv => JStr (fst kv)) kvs)
  | JStr s => inr (map (fun c => JStr (String c "")) (list_ascii_of_string s))
  | JNull | JBool _ | JInt _ | JFloat _ _ => inl TypeError
  end.

End Py.

(** ** HTTP responses and the error taxonomy ([lyft_rides/errors.py]) *)

(** A [requests.Response], as far as the library looks at it:
    [headers['content-type']] ([None]: no such header) and the value
    [response.json()] decodes ([None]: the body is not JSON). *)
Record Response : Type := mkResponse {
  status_code : Z;
  reason : string;
  content_type : option string;
  body : option json
}.

(** An entry of the list [e] built by the adapter: an [ErrorDetails]
    object, or the bare [error_description] value. *)
Inductive detail : Type :=
| ErrorDetails (parameter : string) (title : json)
| Description (v : json).

(** Everything a call can raise.  The first four are the library's own
    taxonomy (subclasses of [APIError]). *)
Inductive exn : Type :=
| ClientError (message : json) (errors : list detail) (meta : json)
    (response : Response)
| ServerError (message : json) (error : option detail) (meta : json)
    (response : Response)
| UnknownHttpError (response : Response)
| LyftIllegalState (message : string)
| Builtin (e : builtin_error).

Definition is_APIError (e : exn) : bool :=
  match e with
  | Builtin _ => false
  | _ => true
  end.

Inductive result (A : Type) : Type :=
| Ok (a : A)
| Raise (e : exn).
Arguments Ok {A} a.
Arguments Raise {A} e.

Definition of_builtin {A : Type} (r : builtin_error + A) : result A :=
  match r with
  | inl e => Raise (Builtin e)
  | inr a => Ok a
  end.

Definition rbind {A B : Type} (r : result A) (k : A -> result B) : result B :=
  match r with
  | Ok a => k a
  | Raise e => Raise e
  end.

(** [response.json()]. *)
Definition json_of (response : Response) : result json :=
  match body response with
  | Some v => Ok v
  | None => Raise (Builtin ValueError)
  end.

(** [response.headers['content-type']]. *)
Definition header_content_type (response : Response) : result string :=
  match content_type response with
  | Some ct => Ok ct
  | None => Raise (Builtin (KeyError "content-type"))
  end.

(** The inner loop of the adapter: one [ErrorDetails] per item of a dict
    entry, nothing for an entry of another type. *)
Definition details_of_entry (error : json) : list detail :=
  match error with
  | JObj items => map (fun kv => ErrorDetails (fst kv) (snd kv)) items
  | _ => []
  end.

(** [HTTPError._simple_response_to_error_adapter]. *)
Definition _simple_response_to_error_adapter
    (status : Z) (original_body : list (string * json))
    : result (list detail * json) :=
  let meta := Py.get "error" original_body in
  if Py.has_key "error_detail" original_body then
    rbind (of_builtin (Py.iter (Py.get "error_detail" original_body)))
      (fun errors => Ok (flat_map details_of_entry errors, meta))
  else if Py.has_key "error_description" original_body then
    Ok ([Description (Py.get "error_description" original_body)], meta)
  else Ok ([], meta).

(** [HTTPError._adapt_response].  [body.get] exists on a dict only. *)
Definition _adapt_response (response : Response) : result (list detail * json) :=
  rbind (header_content_type response) (fun ct =>
  if Py.contains "application/json" ct then
    rbind (json_of response) (fun b =>
    match b with
    | JObj kvs =>
        if Py.truthy (Py.get "error" kvs)
        then _simple_response_to_error_adapter (status_code response) kvs
        else Raise (UnknownHttpError response)
    | _ => Raise (Builtin AttributeError)
    end)
  else Raise (UnknownHttpError response)).

Definition ClientError_default_message : string :=
  "The request contains bad syntax or cannot be filled " +:+
  "due to a fault from the client sending the request.".

Definition ServerError_default_message : string :=
  "The server encounter an error or is " +:+
  "unable to process the request.".

(** [ClientError.__init__]: the exception object, unless adapting the
    response raises first. *)
Definition ClientError_init (response : Response) (message : json) : result exn :=
  let message := if negb (Py.truthy message)
                 then JStr ClientError_default_message else message in
  rbind (_adapt_response response) (fun '(errors, meta) =>
  Ok (ClientError message errors meta response)).

(** [ServerError._adapt_response]: a single error instead of the array. *)
Definition ServerError_adapt_response (response : Response)
    : result (option detail * json) :=
  rbind (_adapt_response response) (fun '(errors, meta) =>
  Ok (head errors, meta)).

(** [ServerError.__init__]. *)
Definition ServerError_init (response : Response) (message : json) : result exn :=
  let message := if negb (Py.truthy message)
                 then JStr ServerError_default_message else message in
  rbind (ServerError_adapt_response response) (fun '(error, meta) =>
  Ok (ServerError message error meta response)).

(** [raise Cls(...)]: what propagates is the constructed exception, or
    the one its constructor raised. *)
Definition raise_from {A : Type} (constructed : result exn) : result A :=
  match constructed with
  | Ok e => Raise e
  | Raise e => Raise e
  end.

(** ** The pre-check hook ([lyft_rides/utils/handlers.py]) *)

(** The conditional expression that picks the message of a 4XX response.
    Only a dict supports both [in] and a subscript by a string. *)
Definition client_error_message (b : json) : result json :=
  match b with
  | JObj kvs =>
      if Py.has_key "error_description" kvs
      then Ok (Py.get "error_description" kvs)
      else if Py.has_key "error_detail" kvs
           then Ok (Py.get "error_detail" kvs)
           else Raise (Builtin (KeyError "error_detail"))
  | _ => Raise (Builtin TypeError)
  end.

(** [error_handler]. *)
Definition error_handler (response : Response) : result Response :=
  if (400 <=? status_code response) && (status_code response <=? 499) then
    rbind (json_of response) (fun b =>
    rbind (client_error_message b) (fun message =>
    raise_from (ClientError_init response message)))
  else if (500 <=? status_code response) && (status_code response <=? 599) then
    raise_from (ServerError_init response JNull)
  else Ok response.

(** ** Credentials and sessions: the data ([lyft_rides/session.py]) *)

(** A [scopes] value as the code passes it around: a [set] of strings
    (from a grant or a token response), a [list] (from the credential
    store), the joined [str], or [None]. *)
Inductive scopes_value : Type :=
| SNone
| SSet (s : gset string)
| SList (l : list string)
| SStr (s : string).

(** The attributes of an [OAuth2Credential].  [expires_in_seconds] is the
    attribute of that name, which [__init__] sets to the absolute expiry
    time. *)
Record OAuth2Credential : Type := mkCredential {
  client_id : string;
  access_token : json;
  expires_in_seconds : Z;
  scopes : scopes_value;
  grant_type : string;
  client_secret : option string;
  refresh_token : json
}.

(** [lyft_rides.utils.auth] is not part of the sources at hand; its
    constants are modelled here. *)
Inductive token_type_tag : Type := OAUTH_TOKEN_TYPE.
Inductive server_path : Type := ACCESS_TOKEN_PATH | REVOKE_PATH | AUTHORIZE_PATH.
Inductive server_host : Type := SERVER_HOST.

(** Modelled from the spec: the grant type names of
    [lyft_rides.utils.auth], a module the sources at hand lack; the wire
    protocol lists [grant_type] as one of [authorization_code],
    [client_credentials] and [refresh_token]. *)
Definition AUTHORIZATION_CODE_GRANT : string := "authorization_code".
Definition CLIENT_CREDENTIAL_GRANT : string := "client_credentials".
Definition REFRESH_TOKEN : string := "refresh_token".

(** Modelled from the spec: the response type of
    [lyft_rides.utils.auth], fixed to [code]; it is also the name of the
    query parameter that carries the authorization code. *)
Definition CODE_RESPONSE_TYPE : string := "code".

Record Session : Type := mkSession {
  oauth2credential : OAuth2Credential;
  token_type : token_type_tag
}.

(** The [data] dict of the token request. *)
Record token_args : Type := mkArgs {
  arg_grant_type : string;
  arg_client_id : option string;
  arg_client_secret : option string;
  arg_scope : scopes_value;
  arg_code : option string;
  arg_refresh_token : json
}.

(** The fields a [Request] of [lyft_rides.request] is built from. *)
Record Request : Type := mkRequest {
  auth_session : Session;
  req_api_host : server_host;
  method : string;
  path : string;
  args : option (list (string * json))
}.

(** ** The world the library runs in *)

(** What leaves the process: a [requests.post] to the authorization
    server (with its HTTP Basic pair and form data), or an executed API
    [Request]. *)
Inductive event : Type :=
| Post (url : server_path) (auth : option string * option string)
    (data : token_args)
| Execute (request : Request).

(** The clock, the network, [urllib] and the interpreter, with the part
    of the history that decides what they answer next.  [clock n] is what
    the [n]-th call of [int(time())] returns; the authorization server and
    the API server answer as a function of everything sent so far.
    [urlparse_query url] is [urlparse(url).query], [None] when [urlparse]
    raises [ValueError] on a malformed URL.  [set_order s] is the order in
    which this run of the interpreter visits the set [s], which depends on
    its string hashing; [int_of_text] is its [int] on strings.  A
    transport failure inside [requests.post] is outside the model. *)
Record World : Type := mkWorld {
  clock : nat -> Z;
  ticks : nat;
  server : list event -> server_path -> token_args -> Response;
  api : list event -> Request -> result Response;
  urlparse_query : string -> option string;
  parse_qs : string -> gmap string (list string);
  set_order : gset string -> list string;
  int_of_text : string -> option Z;
  log : list event
}.

Definition tick (w : World) : World :=
  mkWorld (clock w) (S (ticks w)) (server w) (api w)
          (urlparse_query w) (parse_qs w) (set_order w) (int_of_text w)
          (log w).

Definition record (ev : event) (w : World) : World :=
  mkWorld (clock w) (ticks w) (server w) (api w)
          (urlparse_query w) (parse_qs w) (set_order w) (int_of_text w)
          (log w ++ [ev]).

(** Computations that read the clock, talk to the network and may raise. *)
Definition M (A : Type) : Type := World -> result A * World.

Definition ret {A : Type} (a : A) : M A := fun w => (Ok a, w).

Definition raise {A : Type} (e : exn) : M A := fun w => (Raise e, w).

Definition lift {A : Type} (r : result A) : M A := fun w => (r, w).

Definition bind {A B : Type} (m : M A) (k : A -> M B) : M B :=
  fun w =>
    match m w with
    | (Ok a, w') => k a w'
    | (Raise e, w') => (Raise e, w')
    end.

Notation "x <- m ;; k" := (bind m (fun x => k))
  (at level 100, m at next level, right associativity).

(** [int(time())]. *)
Definition _now : M Z := fun w => (Ok (clock w (ticks w)), tick w).

(** [int(v)], as this run of the interpreter computes it. *)
Definition py_int (v : json) : M Z :=
  fun w => (of_builtin (Py.int (int_of_text w) v), w).

(** [requests.post(url=url, auth=auth_header, data=args)]. *)
Definition requests_post (url : server_path)
    (auth : option string * option string) (data : token_args) : M Response :=
  fun w => (Ok (server w (log w) url data), record (Post url auth data) w).

(** Modelled from the spec: [Request(...).execute()] of
    [lyft_rides.request], a module the sources at hand lack: it builds and
    executes the HTTP request with the session's access token and hands
    back the raw response, or raises what the pre-check hook raises. *)
Definition Request_execute (request : Request) : M Response :=
  fun w => (api w (log w) request, record (Execute request) w).

(** ** [lyft_rides/session.py] *)

(** [Session.__init__]. *)
Definition Session_init (oauth2credential : option OAuth2Credential) : result Session :=
  match oauth2credential with
  | None => Raise (LyftIllegalState "Session must have OAuth 2.0 Credentials.")
  | Some c => Ok (mkSession c OAUTH_TOKEN_TYPE)
  end.

(** [OAuth2Credential.__init__]: the clock is read before [int] is
    applied. *)
Definition OAuth2Credential_init (client_id : string) (access_token : json)
    (expires_in_seconds : json) (scopes : scopes_value) (grant_type : string)
    (client_secret : option string) (refresh_token : json) : M OAuth2Credential :=
  now <- _now ;;
  seconds <- py_int expires_in_seconds ;;
  ret (mkCredential client_id access_token (now + seconds) scopes grant_type
         client_secret refresh_token).

(** [OAuth2Credential.make_from_response].  [.get] exists on a dict
    only, [.split] on a string only. *)
Definition make_from_response (response : Response) (grant_type : string)
    (client_id : string) (client_secret : option string) : M OAuth2Credential :=
  if negb (status_code response =? 200) then
    lift (raise_from (ClientError_init response
            (JStr ("Error with Access Token Request: " +:+ reason response))))
  else
    b <- lift (json_of response) ;;
    match b with
    | JObj kvs =>
        match Py.get "scope" kvs with
        | JStr scopes =>
            let scopes_set : gset string := list_to_set (Py.split scopes) in
            OAuth2Credential_init client_id (Py.get "access_token" kvs)
              (Py.get "expires_in" kvs) (SSet scopes_set) grant_type
              client_secret (Py.get "refresh_token" kvs)
        | _ => raise (Builtin AttributeError)
        end
    | _ => raise (Builtin AttributeError)
    end.

(** [OAuth2Credential.is_stale]. *)
Definition is_stale (self : OAuth2Credential) : M bool :=
  now <- _now ;;
  let remaining := expires_in_seconds self - now in
  ret (remaining <=? 0).

(** ** [lyft_rides/auth.py] *)

(** The attributes of an [AuthorizationCodeGrant].  [state_token] is an
    attribute like any other, so it can hold [None]. *)
Record AuthorizationCodeGrant : Type := mkCodeGrant {
  acg_client_id : string;
  acg_scopes : scopes_value;
  acg_client_secret : string;
  state_token : option string
}.

Record ClientCredentialGrant : Type := mkClientGrant {
  ccg_client_id : string;
  ccg_scopes : scopes_value;
  ccg_client_secret : string
}.

(** The client secret both grant constructors store.  The prefix is a
    constant of [lyft_rides.utils.auth]. *)
Definition sandboxed (SANDBOX_MODE_PREFIX client_secret : string)
    (is_sandbox_mode : bool) : string :=
  if is_sandbox_mode
  then Py.join "-" [SANDBOX_MODE_PREFIX; client_secret]
  else client_secret.

(** [AuthorizationCodeGrant.__init__]; [generated] is what
    [_generate_state_token()] draws when it is called. *)
Definition AuthorizationCodeGrant_init (SANDBOX_MODE_PREFIX : string)
    (generated : string) (client_id client_secret : string)
    (scopes : scopes_value) (is_sandbox_mode : bool)
    (state_token : option string) : AuthorizationCodeGrant :=
  mkCodeGrant client_id scopes
    (sandboxed SANDBOX_MODE_PREFIX client_secret is_sandbox_mode)
    (match state_token with
     | Some t => Some t
     | None => Some generated
     end).

(** [ClientCredentialGrant.__init__]. *)
Definition ClientCredentialGrant_init (SANDBOX_MODE_PREFIX : string)
    (client_id client_secret : string) (scopes : scopes_value)
    (is_sandbox_mode : bool) : ClientCredentialGrant :=
  mkClientGrant client_id scopes
    (sandboxed SANDBOX_MODE_PREFIX client_secret is_sandbox_mode).

(** [OAuth2._extract_query]: [urlparse] may refuse the URL; of what
    [parse_qs] finds, the first value of every parameter; subscripting an
    empty list with [0] raises. *)
Definition _extract_query (redirect_url : string) : M (gmap string string) :=
  fun w =>
    match urlparse_query w redirect_url with
    | None => (Raise (Builtin ValueError), w)
    | Some qs =>
        let query_params := parse_qs w qs in
        if decide (map_Forall (fun _ vs => vs <> []) query_params)
        then (Ok (omap head query_params), w)
        else (Raise (Builtin IndexError), w)
    end.

(** [AuthorizationCodeGrant._verify_query], first half: the CSRF state
    token against the one the redirect carries. *)
Definition _verify_query_state (self : AuthorizationCodeGrant)
    (query_params : gmap string string) : result unit :=
  match query_params !! "state" with
  | None => Raise (LyftIllegalState "Bad Request. Missing state parameter.")
  | Some received_state_token =>
      match state_token self with
      | None => Raise (LyftIllegalState "Missing CSRF State Token in session.")
      | Some expected =>
          if negb (String.eqb expected received_state_token) then
            Raise (LyftIllegalState
                     ("CSRF Error. Expected " +:+ expected +:+
                      ", got " +:+ received_state_token))
          else Ok tt
      end
  end.

(** [AuthorizationCodeGrant._verify_query], second half: either [code]
    or [error].  The result is the value of [query_params.get('code')]. *)
Definition _verify_query_code (query_params : gmap string string)
    : result (option string) :=
  let error := query_params !! "error" in
  let authorization_code := query_params !! CODE_RESPONSE_TYPE in
  if Py.opt_truthy error && Py.opt_truthy authorization_code then
    Raise (LyftIllegalState
             ("Code and Error query params code and error " +:+
              "can not both be set."))
  else if bool_decide (error = None) && bool_decide (authorization_code = None) then
    Raise (LyftIllegalState "Neither query parameter code or error is set.")
  else
    match error with
    | Some e => if Py.str_truthy e then Raise (LyftIllegalState e)
                else Ok authorization_code
    | None => Ok authorization_code
    end.

(** [AuthorizationCodeGrant._verify_query]. *)
Definition _verify_query (self : AuthorizationCodeGrant)
    (query_params : gmap string string) : result (option string) :=
  rbind (_verify_query_state self query_params) (fun _ =>
  _verify_query_code query_params).

(** [if isinstance(scopes, set): scopes = ' '.join(scopes)]; a set is
    visited in the order of this run. *)
Definition space_joined (w : World) (scopes : scopes_value) : scopes_value :=
  match scopes with
  | SSet s => SStr (Py.join " " (set_order w s))
  | _ => scopes
  end.

(** [request_access_token]. *)
Definition request_access_token (grant_type : string)
    (client_id client_secret : option string) (scopes : scopes_value)
    (code : option string) (refresh_token : json) : M Response :=
  fun w =>
  let url := ACCESS_TOKEN_PATH in
  let scopes := space_joined w scopes in
  let args := mkArgs grant_type client_id client_secret scopes code
                refresh_token in
  let auth_header := (client_id, client_secret) in
  (response <- requests_post url auth_header args ;;
   if status_code response =? 200 then ret response
   else
     lift (raise_from (ClientError_init response
             (JStr ("Failed to request access token: " +:+ reason response
                    +:+ "."))))%string) w.

(** [AuthorizationCodeGrant.get_session]. *)
Definition AuthorizationCodeGrant_get_session (self : AuthorizationCodeGrant)
    (redirect_url : string) : M Session :=
  query_params <- _extract_query redirect_url ;;
  authorization_code <- lift (_verify_query self query_params) ;;
  response <- request_access_token AUTHORIZATION_CODE_GRANT
                (Some (acg_client_id self)) (Some (acg_client_secret self))
                SNone authorization_code JNull ;;
  oauth2credential <- make_from_response response AUTHORIZATION_CODE_GRANT
                        (acg_client_id self) (Some (acg_client_secret self)) ;;
  lift (Session_init (Some oauth2credential)).

(** [ClientCredentialGrant.get_session]. *)
Definition ClientCredentialGrant_get_session (self : ClientCredentialGrant)
    : M Session :=
  response <- request_access_token CLIENT_CREDENTIAL_GRANT
                (Some (ccg_client_id self)) (Some (ccg_client_secret self))
                (ccg_scopes self) None JNull ;;
  oauth2credential <- make_from_response response CLIENT_CREDENTIAL_GRANT
                        (ccg_client_id self) (Some (ccg_client_secret self)) ;;
  lift (Session_init (Some oauth2credential)).

(** [refresh_access_token]. *)
Definition refresh_access_token (credential : OAuth2Credential) : M Session :=
  if String.eqb (grant_type credential) AUTHORIZATION_CODE_GRANT then
    response <- request_access_token REFRESH_TOKEN
                  (Some (client_id credential)) (client_secret credential)
                  SNone None (refresh_token credential) ;;
    oauth2credential <- make_from_response response (grant_type credential)
                          (client_id credential) (client_secret credential) ;;
    lift (Session_init (Some oauth2credential))
  else if String.eqb (grant_type credential) CLIENT_CREDENTIAL_GRANT then
    response <- request_access_token CLIENT_CREDENTIAL_GRANT
                  (Some (client_id credential)) (client_secret credential)
                  (scopes credential) None JNull ;;
    oauth2credential <- make_from_response response (grant_type credential)
                          (client_id credential) (client_secret credential) ;;
    lift (Session_init (Some oauth2credential))
  else
    raise (LyftIllegalState
             (grant_type credential +:+
              " Grant Type does not support Refresh Tokens.")).

(** ** [lyft_rides/client.py] *)

Record LyftRidesClient : Type := mkClient {
  session : Session;
  api_host : server_host
}.

(** [LyftRidesClient.__init__]. *)
Definition LyftRidesClient_init (session : Session) : LyftRidesClient :=
  mkClient session SERVER_HOST.

(** A method of the client runs in the world and on the client object;
    what it assigned to [self] stays assigned when it raises. *)
Definition Method (A : Type) : Type :=
  LyftRidesClient -> World -> result A * LyftRidesClient * World.

(** [LyftRidesClient.refresh_oauth_credential]. *)
Definition refresh_oauth_credential : Method unit :=
  fun self w =>
    let credential := oauth2credential (session self) in
    match is_stale credential w with
    | (Ok true, w1) =>
        match refresh_access_token credential w1 with
        | (Ok refresh_session, w2) =>
            (Ok tt, mkClient refresh_session (api_host self), w2)
        | (Raise e, w2) => (Raise e, self, w2)
        end
    | (Ok false, w1) => (Ok tt, self, w1)
    | (Raise e, w1) => (Raise e, self, w1)
    end.

(** [LyftRidesClient._api_call]. *)
Definition _api_call (method target : string)
    (args : option (list (string * json))) : Method Response :=
  fun self w =>
    match refresh_oauth_credential self w with
    | (Ok _, self1, w1) =>
        let request := mkRequest (session self1) (api_host self1)
                         method target args in
        let (r, w2) := Request_execute request w1 in
        (r, self1, w2)
    | (Raise e, self1, w1) => (Raise e, self1, w1)
    end.

Definition get_ride_types (latitude longitude ride_type : json) : Method Response :=
  let args := [("lat", latitude); ("lng", longitude); ("ride_type", ride_type)] in
  _api_call "GET" "v1/ridetypes" (Some args).

Definition get_pickup_time_estimates (latitude longitude ride_type : json)
    : Method Response :=
  let args := [("lat", latitude); ("lng", longitude); ("ride_type", ride_type)] in
  _api_call "GET" "v1/eta" (Some args).

Definition get_cost_estimates (start_latitude start_longitude end_latitude
    end_longitude ride_type : json) : Method Response :=
  let args := [("start_lat", start_latitude); ("start_lng", start_longitude);
               ("end_lat", end_latitude); ("end_lng", end_longitude);
               ("ride_type", ride_type)] in
  _api_call "GET" "v1/cost" (Some args).

Definition get_drivers (latitude longitude : json) : Method Response :=
  let args := [("lat", latitude); ("lng", longitude)] in
  _api_call "GET" "v1/drivers" (Some args).

Definition request_ride (ride_type start_latitude start_longitude start_address
    end_latitude end_longitude end_address primetime_confirmation_token : json)
    : Method Response :=
  let args :=
    [("ride_type", ride_type);
     ("origin", JObj [("lat", start_latitude); ("lng", start_longitude);
                      ("address", start_address)]);
     ("destination", JObj [("lat", end_latitude); ("lng", end_longitude);
                           ("address", end_address)]);
     ("primetime_confirmation_token", primetime_confirmation_token)] in
  _api_call "POST" "v1/rides" (Some args).

Definition get_ride_details (ride_id : string) : Method Response :=
  let endpoint := "v1/rides/" +:+ ride_id in
  _api_call "GET" endpoint None.

Definition cancel_ride (ride_id : string) (cancel_confirmation_token : json)
    : Method Response :=
  let args := [("cancel_confirmation_token", cancel_confirmation_token)] in
  let endpoint := "v1/rides/" +:+ ride_id +:+ "/cancel" in
  _api_call "POST" endpoint (Some args).

Definition rate_tip_ride (ride_id : string)
    (rating tip_amount tip_currency feedback : json) : Method Response :=
  let args := [("rating", rating); ("tip.amount", tip_amount);
               ("tip.currency", tip_currency); ("feedback", feedback)] in
  let endpoint := "v1/rides/" +:+ ride_id +:+ "/rating" in
  _api_call "PUT" endpoint (Some args).

Definition get_ride_receipt (ride_id : string) : Method Response :=
  let endpoint := "v1/rides/" +:+ ride_id +:+ "/receipt" in
  _api_call "GET" endpoint None.

Definition get_user_ride_history (start_time end_time limit : json)
    : Method Response :=
  let args := [("start_time", start_time); ("end_time", end_time);
               ("limit", limit)] in
  _api_call "GET" "v1/rides" (Some args).

Definition get_user_profile : Method Response :=
  _api_call "GET" "v1/profile" None.

(** A call of one of the methods above, with its arguments. *)
Inductive api_method : Type :=
| GetRideTypes (latitude longitude ride_type : json)
| GetPickupTimeEstimates (latitude longitude ride_type : json)
| GetCostEstimates (start_latitude start_longitude end_latitude end_longitude
    ride_type : json)
| GetDrivers (latitude longitude : json)
| RequestRide (ride_type start_latitude start_longitude start_address
    end_latitude end_longitude end_address primetime_confirmation_token : json)
| GetRideDetails (ride_id : string)
| CancelRide (ride_id : string) (cancel_confirmation_token : json)
| RateTipRide (ride_id : string) (rating tip_amount tip_currency feedback : json)
| GetRideReceipt (ride_id : string)
| GetUserRideHistory (start_time end_time limit : json)
| GetUserProfile.

Definition invoke (m : api_method) : Method Response :=
  match m with
  | GetRideTypes a b c => get_ride_types a b c
  | GetPickupTimeEstimates a b c => get_pickup_time_estimates a b c
  | GetCostEstimates a b c d e => get_cost_estimates a b c d e
  | GetDrivers a b => get_drivers a b
  | RequestRide a b c d e f g h => request_ride a b c d e f g h
  | GetRideDetails i => get_ride_details i
  | CancelRide i t => cancel_ride i t
  | RateTipRide i a b c d => rate_tip_ride i a b c d
  | GetRideReceipt i => get_ride_receipt i
  | GetUserRideHistory a b c => get_user_ride_history a b c
  | GetUserProfile => get_user_profile
  end.

(** ** The credential store of [examples/] *)

(** The record [authorization_code_grant_flow] dumps and
    [import_oauth2_credentials] loads; the YAML text in between is taken
    to hold exactly these values. *)
Record credential_data : Type := mkData {
  cd_client_id : string;
  cd_access_token : json;
  cd_expires_in_seconds : Z;
  cd_scopes : list string;
  cd_grant_type : string;
  cd_client_secret : option string;
  cd_refresh_token : json
}.

(** [list(credential.scopes)]; a set is visited in the order of this
    run. *)
Definition list_of_scopes (w : World) (s : scopes_value) : result (list string) :=
  match s with
  | SNone => Raise (Builtin TypeError)
  | SSet s => Ok (set_order w s)
  | SList l => Ok l
  | SStr s => Ok (map (fun c => String c "") (list_ascii_of_string s))
  end.

(** The [credential_data] dict of [authorization_code_grant_flow]. *)
Definition dump_credential (w : World) (credential : OAuth2Credential)
    : result credential_data :=
  rbind (list_of_scopes w (scopes credential)) (fun scope_list =>
  Ok (mkData (client_id credential) (access_token credential)
        (expires_in_seconds credential) scope_list
        (grant_type credential) (client_secret credential)
        (refresh_token credential))).

(** [examples.utils.create_lyft_client] on what
    [import_oauth2_credentials] read. *)
Definition create_lyft_client (credentials : credential_data) : M LyftRidesClient :=
  oauth2credential <- OAuth2Credential_init (cd_client_id credentials)
                        (cd_access_token credentials)
                        (JInt (cd_expires_in_seconds credentials))
                        (SList (cd_scopes credentials))
                        (cd_grant_type credentials)
                        (cd_client_secret credentials)
                        (cd_refresh_token credentials) ;;
  session <- lift (Session_init (Some oauth2credential)) ;;
  ret (LyftRidesClient_init session).

(** ** More of [lyft_rides/auth.py]: the authorization URL *)

(** [string.ascii_letters] and [string.digits]. *)
Definition ascii_letters : string :=
  "abcdefghijklmnopqrstuvwxyzABCDEFGHIJKLMNOPQRSTUVWXYZ".
Definition digits : string := "0123456789".

(** [AuthorizationCodeGrant._generate_state_token]; [choice choices i] is
    what the [i]-th call of [SystemRandom().choice(choices)] returns. *)
Definition _generate_state_token (choice : string -> nat -> ascii)
    (length : nat) : string :=
  let choices := ascii_letters +:+ digits in
  string_of_list_ascii (map (choice choices) (seq 0 length)).

(** [' '.join(self.scopes)]: [None] cannot be iterated, a set is visited
    in the order of this run, a string is iterated character by
    character. *)
Definition joined_scopes (w : World) (scopes : scopes_value) : result string :=
  match scopes with
  | SNone => Raise (Builtin TypeError)
  | SSet s => Ok (Py.join " " (set_order w s))
  | SList l => Ok (Py.join " " l)
  | SStr s =>
      Ok (Py.join " " (map (fun c => String c "") (list_ascii_of_string s)))
  end.

(** What [_build_authorization_request_url] hands to [build_url] of
    [lyft_rides.utils.request]: the host, the path and the ordered query
    arguments. *)
Record authorization_request : Type := mkAuthRequest {
  ar_host : server_host;
  ar_path : server_path;
  ar_args : list (string * json)
}.

(** [OAuth2._build_authorization_request_url]; the valid response types
    are a constant of [lyft_rides.utils.auth]. *)
Definition _build_authorization_request_url (VALID_RESPONSE_TYPES : list string)
    (w : World) (client_id : string) (scopes : scopes_value)
    (response_type : string) (state : option string)
    : result authorization_request :=
  if negb (bool_decide (response_type ∈ VALID_RESPONSE_TYPES)) then
    Raise (LyftIllegalState (response_type +:+ " is not a valid response type."))
  else
    rbind (joined_scopes w scopes) (fun scope =>
    let args := [("scope", JStr scope);
                 ("state", match state with
                           | Some t => JStr t
                           | None => JNull
                           end);
                 ("response_type", JStr response_type);
                 ("client_id", JStr client_id)] in
    Ok (mkAuthRequest SERVER_HOST AUTHORIZE_PATH args)).

(** [AuthorizationCodeGrant.get_authorization_url]. *)
Definition get_authorization_url (VALID_RESPONSE_TYPES : list string)
    (w : World) (self : AuthorizationCodeGrant) : result authorization_request :=
  _build_authorization_request_url VALID_RESPONSE_TYPES w (acg_client_id self)
    (acg_scopes self) CODE_RESPONSE_TYPE (state_token self).

(** ** More of [lyft_rides/auth.py] and [client.py]: revoking *)

(** [revoke_access_token] posts to another endpoint, with the access
    token as a query parameter and neither Basic pair nor form data: the
    world is extended by that endpoint, which answers as a function of the
    tokens posted to it so far, and by the list of those tokens. *)
Record RevokeWorld : Type := mkRevokeWorld {
  base : World;
  revoke_endpoint : list json -> server_path -> json -> Response;
  revocations : list json
}.

(** [revoke_access_token]. *)
Definition revoke_access_token (credential : OAuth2Credential)
    : RevokeWorld -> result unit * RevokeWorld :=
  fun rw =>
    let url := REVOKE_PATH in
    let token := access_token credential in
    let response := revoke_endpoint rw (revocations rw) url token in
    let rw1 := mkRevokeWorld (base rw) (revoke_endpoint rw)
                 (revocations rw ++ [token]) in
    if status_code response =? 200 then (Ok tt, rw1)
    else
      (raise_from (ClientError_init response
                     (JStr ("Failed to revoke access token: " +:+
                            reason response +:+ "."))),
       rw1).

(** [LyftRidesClient.revoke_oauth_credential]. *)
Definition revoke_oauth_credential (self : LyftRidesClient)
    : RevokeWorld -> result unit * LyftRidesClient * RevokeWorld :=
  fun rw =>
    let credential := oauth2credential (session self) in
    let (r, rw1) := revoke_access_token credential rw in
    (r, self, rw1).

(** A scope name that survives the space-joined wire format: not empty
    and free of whitespace. *)
Definition clean_scope (t : string) : Prop :=
  t <> "" /\ Forall (fun c => Py.isspace c = false) (list_ascii_of_string t).

(** A character of [ascii_letters + digits]. *)
Definition alphanumeric (c : ascii) : bool :=
  let n := Z.of_nat (nat_of_ascii c) in
  ((48 <=? n) && (n <=? 57)) || ((65 <=? n) && (n <=? 90))
  || ((97 <=? n) && (n <=? 122)).

(** ** Shapes of responses, requests and redirects

    Conditions and values the statements below are phrased with. *)

(** A token response the constructor accepts in the run [w]: status
    200, a JSON object with a string [scope] and an [expires_in] that the
    run's [int] converts. *)
Definition token_response (w : World) (r : Response)
    (kvs : list (string * json)) (scope : string) (seconds : Z) : Prop :=
  status_code r = 200 /\ body r = Some (JObj kvs) /\
  Py.get "scope" kvs = JStr scope /\
  Py.int (int_of_text w) (Py.get "expires_in" kvs) = inr seconds.

(** The credential [make_from_response] builds from such a response when
    the clock reads [now]. *)
Definition granted (kvs : list (string * json)) (scope : string)
    (seconds now : Z) (gt cid : string) (cs : option string) : OAuth2Credential :=
  mkCredential cid (Py.get "access_token" kvs) (now + seconds)
    (SSet (list_to_set (Py.split scope))) gt cs (Py.get "refresh_token" kvs).

(** The message [request_access_token] gives its [ClientError]. *)
Definition token_request_message (response : Response) : json :=
  JStr ("Failed to request access token: " +:+ reason response +:+ ".").

(** The form data of the token request a refresh sends, by grant type. *)
Definition refresh_data (w : World) (credential : OAuth2Credential)
    : option token_args :=
  if String.eqb (grant_type credential) AUTHORIZATION_CODE_GRANT then
    Some (mkArgs REFRESH_TOKEN (Some (client_id credential))
            (client_secret credential) SNone None (refresh_token credential))
  else if String.eqb (grant_type credential) CLIENT_CREDENTIAL_GRANT then
    Some (mkArgs CLIENT_CREDENTIAL_GRANT (Some (client_id credential))
            (client_secret credential) (space_joined w (scopes credential))
            None JNull)
  else None.

(** Python's [parse_qs] reports a parameter only with the values it
    found for it. *)
Definition nonempty_values (parsed : gmap string (list string)) : Prop :=
  map_Forall (fun _ vs => vs <> []) parsed.

(** With [keep_blank_values] left at its default, as [_extract_query]
    calls it, [parse_qs] also drops every blank value. *)
Definition no_blank_values (parsed : gmap string (list string)) : Prop :=
  map_Forall (fun _ vs => vs <> [] /\ Forall (fun v => v <> "") vs) parsed.

(** When the adapter gives up on a response: its content type does not
    mention JSON, or its JSON object has no [error] that counts as true. *)
Definition unknown_shape (response : Response) : Prop :=
  exists ct, content_type response = Some ct /\
    (Py.contains "application/json" ct = false \/
     Py.contains "application/json" ct = true /\
     exists kvs, body response = Some (JObj kvs) /\
                 Py.truthy (Py.get "error" kvs) = false).

(** ** Sample worlds

    Concrete clocks, servers and redirects on which the statements below
    are evaluated. *)

Definition json_response (status : Z) (phrase : string) (b : json) : Response :=
  mkResponse status phrase (Some "application/json; charset=utf-8") (Some b).

Definition html_response (status : Z) (phrase : string) : Response :=
  mkResponse status phrase (Some "text/html") None.

Definition token_body : json :=
  JObj [("access_token", JStr "tok-2"); ("expires_in", JInt 3600);
        ("scope", JStr "public rides.read"); ("refresh_token", JStr "ref-2")].

(** The text before the first character that [stop] holds of. *)
Fixpoint before (stop : ascii -> bool) (s : string) : string :=
  match s with
  | EmptyString => ""
  | String c s' => if stop c then "" else String c (before stop s')
  end.

(** The text after the first question mark. *)
Fixpoint after_question (url : string) : string :=
  match url with
  | EmptyString => ""
  | String c url' => if Ascii.eqb c "?"%char then url' else after_question url'
  end.

(** The text after the first two slashes in a row. *)
Fixpoint after_slashes (url : string) : string :=
  match url with
  | EmptyString => ""
  | String c url' =>
      match url' with
      | String c' rest =>
          if Ascii.eqb c "/"%char && Ascii.eqb c' "/"%char then rest
          else after_slashes url'
      | EmptyString => ""
      end
  end.

(** A table of the query strings used below, as [parse_qs] reads them. *)
Definition sample_parse_qs (qs : string) : gmap string (list string) :=
  if String.eqb qs "state=xyz&code=abc" then
    {[ "state" := ["xyz"]; "code" := ["abc"] ]}
  else if String.eqb qs "state=xyz&error=access_denied" then
    {[ "state" := ["xyz"]; "error" := ["access_denied"] ]}
  else if String.eqb qs "state=xyz&code=abc&error=access_denied" then
    {[ "state" := ["xyz"]; "code" := ["abc"]; "error" := ["access_denied"] ]}
  else if String.eqb qs "state=xyz" then {[ "state" := ["xyz"] ]}
  else if String.eqb qs "state=forged&code=abc" then
    {[ "state" := ["forged"]; "code" := ["abc"] ]}
  else if String.eqb qs "code=abc" then {[ "code" := ["abc"] ]}
  else ∅.

(** A stand-in for [urlparse(url).query] on URLs of the form
    [scheme://host/path?query#fragment]: the query is the text between
    the first question mark and the fragment, and, as [urlparse] does, it
    refuses a host with a bracket that has no partner. *)
Definition sample_urlparse_query (url : string) : option string :=
  let netloc :=
    before (fun c => Ascii.eqb c "/"%char || Ascii.eqb c "?"%char ||
                     Ascii.eqb c "#"%char)
           (after_slashes url) in
  if xorb (Py.contains "[" netloc) (Py.contains "]" netloc) then None
  else Some (after_question (before (fun c => Ascii.eqb c "#"%char) url)).

(** A stand-in for [int] on short decimal texts, as Python 3 reads them:
    ASCII whitespace and the two Latin-1 spaces around, a sign, digits
    with single underscores between them. *)
Definition int_space (c : ascii) : bool :=
  let n := Z.of_nat (nat_of_ascii c) in
  ((9 <=? n) && (n <=? 13)) || (n =? 32) || (n =? 133) || (n =? 160).

Fixpoint lstrip_int (s : string) : string :=
  match s with
  | EmptyString => ""
  | String c s' => if int_space c then lstrip_int s' else s
  end.

Definition rev_string (s : string) : string :=
  string_of_list_ascii (rev (list_ascii_of_string s)).

Definition digit_of (c : ascii) : option Z :=
  let n := Z.of_nat (nat_of_ascii c) in
  if (48 <=? n) && (n <=? 57) then Some (n - 48) else None.

Fixpoint digits_from (acc : Z) (after_digit : bool) (s : string) : option Z :=
  match s with
  | EmptyString => if after_digit then Some acc else None
  | String c s' =>
      if Ascii.eqb c "_"%char then
        if after_digit then digits_from acc false s' else None
      else
        match digit_of c with
        | Some d => digits_from (10 * acc + d) true s'
        | None => None
        end
  end.

Definition sample_int_of_text (s : string) : option Z :=
  match rev_string (lstrip_int (rev_string (lstrip_int s))) with
  | String "+"%char r => digits_from 0 false r
  | String "-"%char r => Z.opp <$> digits_from 0 false r
  | t => digits_from 0 false t
  end.

(** A world whose clock starts at [t0] and advances one second per
    reading, and whose authorization server always answers [r]. *)
Definition world_with (t0 : Z) (r : Response) : World :=
  mkWorld (fun n => t0 + Z.of_nat n) 0 (fun _ _ _ => r)
    (fun _ _ => Ok (json_response 200 "OK" (JObj [])))
    sample_urlparse_query sample_parse_qs elements sample_int_of_text [].

(** A world whose clock stands still at [t0]. *)
Definition frozen_world (t0 : Z) (r : Response) : World :=
  mkWorld (fun _ => t0) 0 (fun _ _ _ => r)
    (fun _ _ => Ok (json_response 200 "OK" (JObj [])))
    sample_urlparse_query sample_parse_qs elements sample_int_of_text [].

(** The same world for a run that visits every set in the opposite
    order. *)
Definition reversed_world (t0 : Z) (r : Response) : World :=
  mkWorld (fun n => t0 + Z.of_nat n) 0 (fun _ _ _ => r)
    (fun _ _ => Ok (json_response 200 "OK" (JObj [])))
    sample_urlparse_query sample_parse_qs (fun s => rev (elements s))
    sample_int_of_text [].

Definition sample_credential (expiry : Z) (gt : string) : OAuth2Credential :=
  mkCredential "client-1" (JStr "tok-1") expiry
    (SSet {[ "public"; "rides.read" ]}) gt (Some "secret-1") (JStr "ref-1").

(** ** Properties *)

(** *** Staleness ([session.py]) *)

Lemma OAuth2Credential_init_int (e : Z) cid tok sc gt cs rt (w : World) :
  OAuth2Credential_init cid tok (JInt e) sc gt cs rt w =
  (Ok (mkCredential cid tok (clock w (ticks w) + e) sc gt cs rt), tick w).
Proof. reflexivity. Qed.

(** [is_stale] compares the stored absolute expiry with one clock
    reading. *)
Lemma is_stale_reads_clock (c : OAuth2Credential) (w : World) :
  is_stale c w = (Ok (expires_in_seconds c <=? clock w (ticks w)), tick w).
Proof.
  unfold is_stale, bind, _now, ret. f_equal. f_equal.
  destruct (Z.leb_spec (expires_in_seconds c) (clock w (ticks w)));
    [apply Z.leb_le | apply Z.leb_gt]; lia.
Qed.

(** C1, as amended: a credential constructed at time [t] with
    [expires_in_seconds = e] has [expiresAt = t + e]; when [0 < e] it is
    not stale when queried at time [t], and for every [e] it is stale when
    queried at any time at or after [expiresAt]. *)
Theorem fresh_credential_staleness (e : Z) cid tok sc gt cs rt (w w' : World) :
  let t := clock w (ticks w) in
  let t' := clock w' (ticks w') in
  exists c,
    OAuth2Credential_init cid tok (JInt e) sc gt cs rt w = (Ok c, tick w) /\
    expires_in_seconds c = t + e /\
    (0 < e -> t' = t -> is_stale c w' = (Ok false, tick w')) /\
    (t + e <= t' -> is_stale c w' = (Ok true, tick w')).
Proof.
  intros t t'. eexists. split; [apply OAuth2Credential_init_int |].
  split; [reflexivity |]. rewrite is_stale_reads_clock. cbn [expires_in_seconds].
  fold t t'. split.
  - intros He Ht. f_equal. f_equal. apply Z.leb_gt. lia.
  - intros Hle. f_equal. f_equal. apply Z.leb_le. lia.
Qed.

Lemma fresh_credential_staleness_witness :
  let w := frozen_world 1000 (json_response 200 "OK" token_body) in
  let c := mkCredential "client-1" (JStr "tok-1") 4600 SNone
             AUTHORIZATION_CODE_GRANT None JNull in
  is_stale c w = (Ok false, tick w) /\
  is_stale c (frozen_world 4600 (html_response 500 "down")) =
    (Ok true, tick (frozen_world 4600 (html_response 500 "down"))).
Proof.
  intros w c.
  destruct (fresh_credential_staleness 3600 "client-1" (JStr "tok-1") SNone
              AUTHORIZATION_CODE_GRANT None JNull w w)
    as (c1 & Hc1 & _ & Hfresh & _).
  destruct (fresh_credential_staleness 3600 "client-1" (JStr "tok-1") SNone
              AUTHORIZATION_CODE_GRANT None JNull w
              (frozen_world 4600 (html_response 500 "down")))
    as (c2 & Hc2 & _ & _ & Hlate).
  rewrite OAuth2Credential_init_int in Hc1, Hc2.
  injection Hc1 as <-. injection Hc2 as <-.
  split; [apply Hfresh; [lia | reflexivity] | apply Hlate; simpl; lia].
Defined.

(** C1 as stated fails at [expires_in_seconds = 0]: the credential
    constructed at time 1000 is already stale when queried at time 1000. *)
Lemma zero_lifetime_credential_is_stale_at_once :
  let w := frozen_world 1000 (json_response 200 "OK" token_body) in
  exists c,
    OAuth2Credential_init "client-1" (JStr "tok-1") (JInt 0) SNone
      AUTHORIZATION_CODE_GRANT None JNull w = (Ok c, tick w) /\
    clock (tick w) (ticks (tick w)) = clock w (ticks w) /\
    is_stale c (tick w) = (Ok true, tick (tick w)).
Proof. eexists. repeat split. Qed.

(** *** Credentials from token responses ([session.py]) *)

Lemma make_from_response_200 r kvs scope seconds gt cid cs (w : World) :
  token_response w r kvs scope seconds ->
  make_from_response r gt cid cs w =
  (Ok (granted kvs scope seconds (clock w (ticks w)) gt cid cs), tick w).
Proof.
  intros (Hstatus & Hbody & Hscope & Hint).
  unfold make_from_response, json_of. rewrite Hstatus, Hbody. simpl.
  unfold bind at 1, lift at 1. rewrite Hscope.
  unfold OAuth2Credential_init, bind, _now, py_int, lift, ret.
  cbn [int_of_text tick]. rewrite Hint. reflexivity.
Qed.

(** *** One token request per call ([auth.py]) *)

(** A run of [request_access_token]: one [Post], then the status test. *)
Lemma request_access_token_run gt cid cs sc code rt (w : World) :
  let data := mkArgs gt cid cs (space_joined w sc) code rt in
  let response := server w (log w) ACCESS_TOKEN_PATH data in
  request_access_token gt cid cs sc code rt w =
  (if status_code response =? 200 then Ok response
   else raise_from (ClientError_init response (token_request_message response)),
   record (Post ACCESS_TOKEN_PATH (cid, cs) data) w).
Proof.
  intros data response. unfold request_access_token, bind, requests_post.
  fold data. fold response.
  destruct (status_code response =? 200); reflexivity.
Qed.

Lemma OAuth2Credential_init_log cid tok e sc gt cs rt (w : World) :
  log (snd (OAuth2Credential_init cid tok e sc gt cs rt w)) = log w.
Proof.
  unfold OAuth2Credential_init, bind, _now, py_int, lift, ret.
  destruct (of_builtin (Py.int (int_of_text (tick w)) e)); reflexivity.
Qed.

(** Building a credential from a response sends nothing. *)
Lemma make_from_response_log response gt cid cs (w : World) :
  log (snd (make_from_response response gt cid cs w)) = log w.
Proof.
  unfold make_from_response.
  destruct (negb (status_code response =? 200)); [reflexivity |].
  unfold bind, lift. destruct (json_of response) as [b | e]; [| reflexivity].
  destruct b as [| | | | |? | kvs]; try reflexivity.
  destruct (Py.get "scope" kvs); try reflexivity.
  apply OAuth2Credential_init_log.
Qed.

(** The tail of both refreshing branches and of both [get_session]s. *)
Lemma session_of_response_log response gt cid cs (w : World) :
  log (snd ((oauth2credential <- make_from_response response gt cid cs ;;
             lift (Session_init (Some oauth2credential))) w)) = log w.
Proof.
  unfold bind. pose proof (make_from_response_log response gt cid cs w) as H.
  destruct (make_from_response response gt cid cs w) as [[c | e] w1];
    simpl in *; exact H.
Qed.

(** A refresh sends exactly the token request of [refresh_data], once,
    and nothing when the grant type has none. *)
Lemma refresh_access_token_log (credential : OAuth2Credential) (w : World) :
  log (snd (refresh_access_token credential w)) =
  log w ++
  match refresh_data w credential with
  | Some data =>
      [Post ACCESS_TOKEN_PATH
         (Some (client_id credential), client_secret credential) data]
  | None => []
  end.
Proof.
  unfold refresh_access_token, refresh_data.
  destruct (String.eqb (grant_type credential) AUTHORIZATION_CODE_GRANT);
    [| destruct (String.eqb (grant_type credential) CLIENT_CREDENTIAL_GRANT)].
  3: { simpl. now rewrite app_nil_r. }
  all: unfold bind at 1; rewrite request_access_token_run; cbv zeta.
  all: match goal with
       | |- context [server ?w0 ?l ACCESS_TOKEN_PATH ?d] =>
           set (response := server w0 l ACCESS_TOKEN_PATH d)
       end.
  all: destruct (status_code response =? 200);
    [ rewrite session_of_response_log; reflexivity
    | unfold raise_from; destruct (ClientError_init _ _); reflexivity ].
Qed.

Lemma refresh_without_data_raises (credential : OAuth2Credential) (w : World) :
  refresh_data w credential = None ->
  refresh_access_token credential w =
  (Raise (LyftIllegalState
            (grant_type credential +:+
             " Grant Type does not support Refresh Tokens.")), w).
Proof.
  unfold refresh_data, refresh_access_token.
  destruct (String.eqb (grant_type credential) AUTHORIZATION_CODE_GRANT);
    [discriminate |].
  destruct (String.eqb (grant_type credential) CLIENT_CREDENTIAL_GRANT);
    [discriminate | reflexivity].
Qed.

(** A refresh that is answered by an acceptable token response returns a
    session around the credential granted by it. *)
Lemma refresh_access_token_ok (credential : OAuth2Credential) (w : World)
    data kvs scope seconds :
  refresh_data w credential = Some data ->
  token_response w (server w (log w) ACCESS_TOKEN_PATH data) kvs scope seconds ->
  refresh_access_token credential w =
  (Ok (mkSession
         (granted kvs scope seconds (clock w (ticks w))
            (grant_type credential) (client_id credential)
            (client_secret credential))
         OAUTH_TOKEN_TYPE),
   tick (record (Post ACCESS_TOKEN_PATH
                   (Some (client_id credential), client_secret credential)
                   data) w)).
Proof.
  unfold refresh_data, refresh_access_token.
  destruct (String.eqb (grant_type credential) AUTHORIZATION_CODE_GRANT);
    [| destruct (String.eqb (grant_type credential) CLIENT_CREDENTIAL_GRANT)].
  3: discriminate.
  all: intros [= <-] Hr; unfold bind at 1; rewrite request_access_token_run;
    cbv zeta; pose proof Hr as (Hstatus & _); simpl in Hstatus |- *;
    rewrite Hstatus; simpl; unfold bind;
    erewrite make_from_response_200 by exact Hr; reflexivity.
Qed.

(** *** Refresh before dispatch ([client.py]) *)

(** [refresh_oauth_credential] reads the clock once and refreshes when
    the expiry has been reached. *)
Lemma refresh_oauth_credential_run (self : LyftRidesClient) (w : World) :
  let credential := oauth2credential (session self) in
  refresh_oauth_credential self w =
  if expires_in_seconds credential <=? clock w (ticks w) then
    match refresh_access_token credential (tick w) with
    | (Ok refresh_session, w2) =>
        (Ok tt, mkClient refresh_session (api_host self), w2)
    | (Raise e, w2) => (Raise e, self, w2)
    end
  else (Ok tt, self, tick w).
Proof.
  intros credential. unfold refresh_oauth_credential. fold credential.
  rewrite is_stale_reads_clock.
  destruct (expires_in_seconds credential <=? clock w (ticks w)); reflexivity.
Qed.

(** Every method of the client is one call of the internal dispatch. *)
Lemma invoke_is_api_call (m : api_method) :
  exists method target args, invoke m = _api_call method target args.
Proof. destruct m; do 3 eexists; reflexivity. Qed.

(** C2: every API-client method goes through [_api_call], which checks
    staleness before it builds the request.  A fresh credential leaves the
    session as it is and only the domain request is sent.  A stale one is
    refreshed by one call of [refresh_access_token]: when that returns, its
    session replaces the held one and is the one the request is built
    from, and the refresh's single token request precedes the domain
    request; when it raises, nothing more is sent.  A credential
    constructed with [expires_in_seconds = 0] is stale at the first call. *)
Theorem api_call_refreshes_stale_credential_once
    (m : api_method) (self : LyftRidesClient) (w : World) :
  let credential := oauth2credential (session self) in
  let now := clock w (ticks w) in
  let token_request data :=
    Post ACCESS_TOKEN_PATH
      (Some (client_id credential), client_secret credential) data in
  exists method target args,
    invoke m = _api_call method target args /\
    let sent s := mkRequest s (api_host self) method target args in
    let refreshed_once :=
      match refresh_access_token credential (tick w) with
      | (Ok refreshed, w2) =>
          invoke m self w =
            (api w2 (log w2) (sent refreshed),
             mkClient refreshed (api_host self),
             record (Execute (sent refreshed)) w2) /\
          exists data,
            log (record (Execute (sent refreshed)) w2) =
            log w ++ [token_request data; Execute (sent refreshed)]
      | (Raise e, w2) =>
          invoke m self w = (Raise e, self, w2) /\
          (log w2 = log w \/ exists data, log w2 = log w ++ [token_request data])
      end in
    (now < expires_in_seconds credential ->
       invoke m self w =
         (api w (log w) (sent (session self)), self,
          record (Execute (sent (session self))) (tick w))) /\
    (expires_in_seconds credential <= now -> refreshed_once) /\
    (forall w0 cid tok sc gt cs rt,
       OAuth2Credential_init cid tok (JInt 0) sc gt cs rt w0
         = (Ok credential, tick w0) ->
       clock w0 (ticks w0) <= now -> refreshed_once).
Proof.
  intros credential now token_request.
  destruct (invoke_is_api_call m) as (method & target & args & Hm).
  exists method, target, args. split; [exact Hm |].
  intros sent refreshed_once.
  assert (Hstale : expires_in_seconds credential <= now -> refreshed_once).
  { intros Hle. subst refreshed_once. rewrite Hm. unfold _api_call.
    rewrite refresh_oauth_credential_run. fold credential. fold now.
    replace (expires_in_seconds credential <=? now) with true
      by (symmetry; apply Z.leb_le; exact Hle).
    pose proof (refresh_access_token_log credential (tick w)) as Hlog.
    pose proof (refresh_without_data_raises credential (tick w)) as Hnone.
    destruct (refresh_access_token credential (tick w)) as [[refreshed | e] w2];
      simpl in Hlog.
    - split; [reflexivity |].
      destruct (refresh_data (tick w) credential) as [data |].
      + exists data. simpl. rewrite Hlog. rewrite <- app_assoc. reflexivity.
      + specialize (Hnone eq_refl). discriminate Hnone.
    - split; [reflexivity |].
      destruct (refresh_data (tick w) credential) as [data |].
      + right. exists data. exact Hlog.
      + left. rewrite Hlog. apply app_nil_r. }
  split; [| split].
  - intros Hlt. rewrite Hm. unfold _api_call.
    rewrite refresh_oauth_credential_run. fold credential. fold now.
    replace (expires_in_seconds credential <=? now) with false
      by (symmetry; apply Z.leb_gt; exact Hlt).
    reflexivity.
  - exact Hstale.
  - intros w0 cid tok sc gt cs rt Hinit Hclock. apply Hstale.
    rewrite OAuth2Credential_init_int in Hinit.
    injection Hinit as Hc. rewrite <- Hc. simpl. lia.
Qed.

Lemma api_call_refreshes_stale_credential_once_witness :
  let w0 := world_with 1000 (json_response 200 "OK" token_body) in
  let credential := mkCredential "client-1" (JStr "tok-1") 1000 SNone
                      AUTHORIZATION_CODE_GRANT (Some "secret-1")
                      (JStr "ref-1") in
  let self := LyftRidesClient_init (mkSession credential OAUTH_TOKEN_TYPE) in
  let w := tick w0 in
  exists data request,
    access_token (oauth2credential (auth_session request)) = JStr "tok-2" /\
    session (snd (fst (invoke GetUserProfile self w))) = auth_session request /\
    log (snd (invoke GetUserProfile self w)) =
    [Post ACCESS_TOKEN_PATH (Some "client-1", Some "secret-1") data;
     Execute request].
Proof.
  intros w0 credential self w.
  destruct (api_call_refreshes_stale_credential_once GetUserProfile self w)
    as (method & target & args & _ & _ & _ & Hzero).
  specialize (Hzero w0 "client-1" (JStr "tok-1") SNone
                AUTHORIZATION_CODE_GRANT (Some "secret-1") (JStr "ref-1")
                eq_refl ltac:(simpl; lia)).
  destruct (refresh_access_token (oauth2credential (session self)) (tick w))
    as [[refreshed | e] w2] eqn:Hrefresh.
  - destruct Hzero as [Hcall [data Hlog]].
    exists data, (mkRequest refreshed (api_host self) method target args).
    rewrite Hcall. cbn [fst snd session auth_session].
    split; [| split; [reflexivity | exact Hlog]].
    erewrite refresh_access_token_ok in Hrefresh
      by (try reflexivity; repeat split; reflexivity).
    injection Hrefresh as <- _. reflexivity.
  - erewrite refresh_access_token_ok in Hrefresh
      by (try reflexivity; repeat split; reflexivity).
    discriminate Hrefresh.
Defined.

(** *** Verifying the redirect ([auth.py]) *)

Lemma no_blank_values_nonempty parsed :
  no_blank_values parsed -> nonempty_values parsed.
Proof. intros H k vs Hk. exact (proj1 (H k vs Hk)). Qed.

Lemma extracted_not_blank parsed (k v : string) :
  no_blank_values parsed ->
  (omap head parsed : gmap string string) !! k = Some v -> Py.str_truthy v = true.
Proof.
  intros H Hk. rewrite lookup_omap in Hk.
  destruct (parsed !! k) as [vs |] eqn:Hvs; [| discriminate].
  destruct (H k vs Hvs) as [_ Hall]. destruct vs as [| v0 vs]; [discriminate |].
  simpl in Hk. injection Hk as ->. inversion Hall as [| ? ? Hv _]; subst.
  unfold Py.str_truthy. destruct (String.eqb_spec v ""); [contradiction | reflexivity].
Qed.

Lemma verify_query_state_ok (self : AuthorizationCodeGrant)
    (query_params : gmap string string) :
  _verify_query_state self query_params = Ok tt <->
  exists token, query_params !! "state" = Some token /\
                state_token self = Some token.
Proof.
  unfold _verify_query_state. split.
  - destruct (query_params !! "state") as [received |]; [| discriminate].
    destruct (state_token self) as [expected |]; [| discriminate].
    destruct (String.eqb_spec expected received) as [-> | Hne]; [| discriminate].
    intros _. exists received. split; reflexivity.
  - intros (token & -> & ->). rewrite String.eqb_refl. reflexivity.
Qed.

Section Redirect.

(** One grant, one redirect URL, one world; [urlparse] accepts the URL
    and [parse_qs] reports every parameter of its query with at least one
    value. *)
Variable self : AuthorizationCodeGrant.
Variable redirect_url : string.
Variable w : World.
Variable qs : string.

Let parsed := parse_qs w qs.
Let query_params : gmap string string := omap head parsed.

Hypothesis urlparse_returns : urlparse_query w redirect_url = Some qs.
Hypothesis parsed_nonempty : nonempty_values parsed.

Lemma extract_query_run :
  _extract_query redirect_url w = (Ok query_params, w).
Proof.
  unfold _extract_query. rewrite urlparse_returns. cbv zeta. fold parsed.
  destruct (decide _) as [_ | Hn]; [reflexivity | contradiction].
Qed.

(** A redirect that fails verification ends [get_session] there: the
    exception propagates and nothing is sent. *)
Lemma get_session_verify_raises (e : exn) :
  _verify_query self query_params = Raise e ->
  AuthorizationCodeGrant_get_session self redirect_url w = (Raise e, w).
Proof.
  intros Hv. unfold AuthorizationCodeGrant_get_session, bind at 1.
  rewrite extract_query_run. unfold bind at 1, lift at 1.
  rewrite Hv. reflexivity.
Qed.

(** The token exchange [get_session] goes on with once the redirect is
    verified. *)
Lemma get_session_verified (authorization_code : option string) :
  _verify_query self query_params = Ok authorization_code ->
  AuthorizationCodeGrant_get_session self redirect_url w =
  (response <- request_access_token AUTHORIZATION_CODE_GRANT
                 (Some (acg_client_id self)) (Some (acg_client_secret self))
                 SNone authorization_code JNull ;;
   oauth2credential <- make_from_response response AUTHORIZATION_CODE_GRANT
                         (acg_client_id self)
                         (Some (acg_client_secret self)) ;;
   lift (Session_init (Some oauth2credential))) w.
Proof.
  intros Hv. unfold AuthorizationCodeGrant_get_session at 1, bind at 1.
  rewrite extract_query_run. unfold bind at 1, lift at 1.
  rewrite Hv. reflexivity.
Qed.

End Redirect.

(** A URL that [urlparse] refuses ends [get_session] with its
    [ValueError]; nothing is verified and nothing is sent. *)
Lemma get_session_refused_url (self : AuthorizationCodeGrant)
    (redirect_url : string) (w : World) :
  urlparse_query w redirect_url = None ->
  AuthorizationCodeGrant_get_session self redirect_url w =
  (Raise (Builtin ValueError), w).
Proof.
  intros Hnone. unfold AuthorizationCodeGrant_get_session, bind at 1.
  unfold _extract_query. rewrite Hnone. reflexivity.
Qed.

(** Reduce a goal about [get_session] on a redirect that fails
    verification to the verification itself. *)
Ltac by_verification Hqs Hne :=
  apply (get_session_verify_raises _ _ _ _ Hqs); [exact Hne |];
  unfold _verify_query, _verify_query_state, _verify_query_code,
    CODE_RESPONSE_TYPE.

(** C3, as amended: for every redirect URL that [urlparse] accepts,
    [get_session] fails with [LyftIllegalState] when the redirect carries
    no [state] parameter, and when the one it carries is not the grant's
    stored state token; in both cases nothing is sent.  The state check
    is passed exactly when the received [state] is the stored token, and
    verification then goes on to the [code]/[error] check. *)
Theorem get_session_checks_csrf_state (self : AuthorizationCodeGrant)
    (redirect_url : string) (w : World) (qs : string) :
  let parsed := parse_qs w qs in
  let query_params : gmap string string := omap head parsed in
  urlparse_query w redirect_url = Some qs ->
  nonempty_values parsed ->
  (query_params !! "state" = None ->
     AuthorizationCodeGrant_get_session self redirect_url w =
     (Raise (LyftIllegalState "Bad Request. Missing state parameter."), w)) /\
  (forall received,
     query_params !! "state" = Some received ->
     state_token self <> Some received ->
     exists message,
       AuthorizationCodeGrant_get_session self redirect_url w =
       (Raise (LyftIllegalState message), w) /\
       forall expected,
         state_token self = Some expected ->
         message = "CSRF Error. Expected " +:+ expected +:+ ", got " +:+ received) /\
  (_verify_query_state self query_params = Ok tt <->
   exists token, query_params !! "state" = Some token /\
                 state_token self = Some token) /\
  (_verify_query_state self query_params = Ok tt ->
   _verify_query self query_params = _verify_query_code query_params).
Proof.
  intros parsed query_params Hqs Hne. split; [| split; [| split]].
  - intros Hstate. by_verification Hqs Hne.
    fold parsed. fold query_params. rewrite Hstate. reflexivity.
  - intros received Hstate Hdiff.
    destruct (state_token self) as [expected |] eqn:Htoken.
    + eexists. split.
      * by_verification Hqs Hne. fold parsed. fold query_params.
        rewrite Hstate, Htoken.
        destruct (String.eqb_spec expected received) as [-> | _];
          [contradiction | reflexivity].
      * intros ? [= <-]. reflexivity.
    + eexists. split.
      * by_verification Hqs Hne. fold parsed. fold query_params.
        rewrite Hstate, Htoken. reflexivity.
      * intros ? [=].
  - apply verify_query_state_ok.
  - intros H. unfold _verify_query. rewrite H. reflexivity.
Qed.

Lemma get_session_checks_csrf_state_witness :
  let self := mkCodeGrant "client-1" SNone "secret-1" (Some "xyz") in
  let w := world_with 1000 (json_response 200 "OK" token_body) in
  AuthorizationCodeGrant_get_session self
    "https://app.example/cb?state=forged&code=abc" w =
  (Raise (LyftIllegalState "CSRF Error. Expected xyz, got forged"), w) /\
  AuthorizationCodeGrant_get_session self "https://app.example/cb?code=abc" w =
  (Raise (LyftIllegalState "Bad Request. Missing state parameter."), w) /\
  _verify_query self
    (omap head (sample_parse_qs "state=xyz&code=abc")) =
  _verify_query_code (omap head (sample_parse_qs "state=xyz&code=abc")).
Proof.
  intros self w.
  assert (Hne : forall qs, nonempty_values (sample_parse_qs qs)).
  { intros qs. unfold sample_parse_qs.
    repeat match goal with
           | |- context [String.eqb qs ?s] => destruct (String.eqb qs s)
           end;
      apply (bool_decide_unpack _); vm_compute; exact I. }
  split; [| split].
  - destruct (get_session_checks_csrf_state self
                "https://app.example/cb?state=forged&code=abc" w _ eq_refl
                (Hne _))
      as (_ & Hforged & _).
    destruct (Hforged "forged" eq_refl ltac:(discriminate))
      as (message & Hrun & Hmsg).
    rewrite Hrun, (Hmsg "xyz" eq_refl). reflexivity.
  - destruct (get_session_checks_csrf_state self
                "https://app.example/cb?code=abc" w _ eq_refl (Hne _))
      as (Hmissing & _).
    exact (Hmissing eq_refl).
  - destruct (get_session_checks_csrf_state self
                "https://app.example/cb?state=xyz&code=abc" w _ eq_refl
                (Hne _))
      as (_ & _ & Hiff & Hpass).
    apply Hpass. apply Hiff. exists "xyz". split; reflexivity.
Defined.

(** C3 as stated fails on a redirect URL that [urlparse] refuses: the
    URL carries no [state], and [get_session] ends with the [ValueError]
    of [urlparse], not with [LyftIllegalState]. *)
Lemma get_session_on_refused_url :
  let self := mkCodeGrant "client-1" SNone "secret-1" (Some "xyz") in
  let w := world_with 1000 (json_response 200 "OK" token_body) in
  urlparse_query w "https://[app.example/cb?code=abc" = None /\
  AuthorizationCodeGrant_get_session self "https://[app.example/cb?code=abc" w =
  (Raise (Builtin ValueError), w) /\
  is_APIError (Builtin ValueError) = false.
Proof.
  intros self w. split; [reflexivity |]. split; [| reflexivity].
  apply get_session_refused_url. reflexivity.
Qed.

(** C4: once the state check is passed, [get_session] fails with
    [LyftIllegalState] when the redirect carries both [code] and [error],
    and when it carries neither; with only [error] it fails with
    [LyftIllegalState] carrying the error text; with only [code],
    verification returns that code and the token exchange is made with it. *)
Theorem get_session_needs_code_or_error (self : AuthorizationCodeGrant)
    (redirect_url : string) (w : World) (qs : string) :
  let parsed := parse_qs w qs in
  let query_params : gmap string string := omap head parsed in
  urlparse_query w redirect_url = Some qs ->
  no_blank_values parsed ->
  _verify_query_state self query_params = Ok tt ->
  (is_Some (query_params !! "code") -> is_Some (query_params !! "error") ->
     AuthorizationCodeGrant_get_session self redirect_url w =
     (Raise (LyftIllegalState
               "Code and Error query params code and error can not both be set."),
      w)) /\
  (query_params !! "code" = None -> query_params !! "error" = None ->
     AuthorizationCodeGrant_get_session self redirect_url w =
     (Raise (LyftIllegalState "Neither query parameter code or error is set."),
      w)) /\
  (forall error,
     query_params !! "error" = Some error -> query_params !! "code" = None ->
     AuthorizationCodeGrant_get_session self redirect_url w =
     (Raise (LyftIllegalState error), w)) /\
  (forall authorization_code,
     query_params !! "code" = Some authorization_code ->
     query_params !! "error" = None ->
     _verify_query self query_params = Ok (Some authorization_code) /\
     AuthorizationCodeGrant_get_session self redirect_url w =
     (response <- request_access_token AUTHORIZATION_CODE_GRANT
                    (Some (acg_client_id self)) (Some (acg_client_secret self))
                    SNone (Some authorization_code) JNull ;;
      oauth2credential <- make_from_response response AUTHORIZATION_CODE_GRANT
                            (acg_client_id self)
                            (Some (acg_client_secret self)) ;;
      lift (Session_init (Some oauth2credential))) w).
Proof.
  intros parsed query_params Hqs Hnb Hstate.
  pose proof (no_blank_values_nonempty _ Hnb) as Hne.
  split; [| split; [| split]].
  - intros [code Hcode] [error Herror]. by_verification Hqs Hne.
    fold parsed. fold query_params.
    fold (_verify_query_state self query_params). rewrite Hstate. simpl rbind.
    rewrite Hcode, Herror. simpl.
    rewrite (extracted_not_blank _ _ _ Hnb Hcode),
      (extracted_not_blank _ _ _ Hnb Herror). reflexivity.
  - intros Hcode Herror. by_verification Hqs Hne.
    fold parsed. fold query_params.
    fold (_verify_query_state self query_params). rewrite Hstate. simpl rbind.
    rewrite Hcode, Herror. reflexivity.
  - intros error Herror Hcode. by_verification Hqs Hne.
    fold parsed. fold query_params.
    fold (_verify_query_state self query_params). rewrite Hstate. simpl rbind.
    rewrite Hcode, Herror. simpl.
    rewrite (extracted_not_blank _ _ _ Hnb Herror), andb_false_r. reflexivity.
  - intros authorization_code Hcode Herror.
    assert (Hv : _verify_query self query_params = Ok (Some authorization_code)).
    { unfold _verify_query. rewrite Hstate. simpl rbind.
      unfold _verify_query_code, CODE_RESPONSE_TYPE.
      rewrite Hcode, Herror. reflexivity. }
    split; [exact Hv |].
    apply (get_session_verified _ _ _ _ Hqs); [exact Hne | exact Hv].
Qed.

Lemma get_session_needs_code_or_error_witness :
  let self := mkCodeGrant "client-1" SNone "secret-1" (Some "xyz") in
  let w := world_with 1000 (json_response 200 "OK" token_body) in
  AuthorizationCodeGrant_get_session self
    "https://app.example/cb?state=xyz&code=abc&error=access_denied" w =
  (Raise (LyftIllegalState
            "Code and Error query params code and error can not both be set."),
   w) /\
  AuthorizationCodeGrant_get_session self "https://app.example/cb?state=xyz" w =
  (Raise (LyftIllegalState "Neither query parameter code or error is set."), w) /\
  AuthorizationCodeGrant_get_session self
    "https://app.example/cb?state=xyz&error=access_denied" w =
  (Raise (LyftIllegalState "access_denied"), w) /\
  _verify_query self (omap head (sample_parse_qs "state=xyz&code=abc")) =
  Ok (Some "abc").
Proof.
  intros self w.
  assert (Hnb : forall qs, no_blank_values (sample_parse_qs qs)).
  { intros qs. unfold sample_parse_qs.
    repeat match goal with
           | |- context [String.eqb qs ?s] => destruct (String.eqb qs s)
           end;
      apply (bool_decide_unpack _); vm_compute; exact I. }
  split; [| split; [| split]].
  - destruct (get_session_needs_code_or_error self
                "https://app.example/cb?state=xyz&code=abc&error=access_denied"
                w _ eq_refl (Hnb _) eq_refl) as (Hboth & _).
    apply Hboth; eexists; reflexivity.
  - destruct (get_session_needs_code_or_error self
                "https://app.example/cb?state=xyz" w _ eq_refl (Hnb _) eq_refl)
      as (_ & Hneither & _).
    apply Hneither; reflexivity.
  - destruct (get_session_needs_code_or_error self
                "https://app.example/cb?state=xyz&error=access_denied"
                w _ eq_refl (Hnb _) eq_refl) as (_ & _ & Herror & _).
    apply Herror; reflexivity.
  - destruct (get_session_needs_code_or_error self
                "https://app.example/cb?state=xyz&code=abc"
                w _ eq_refl (Hnb _) eq_refl) as (_ & _ & _ & Hcode).
    exact (proj1 (Hcode "abc" eq_refl eq_refl)).
Defined.

(** Outside [get_session], a dict with a blank [error] passes
    [_verify_query]: the checks test truth values, not presence. *)
Example verify_query_blank_error :
  _verify_query (mkCodeGrant "client-1" SNone "secret-1" (Some "xyz"))
    {[ "state" := "xyz"; "error" := ""; "code" := "abc" ]} = Ok (Some "abc").
Proof. reflexivity. Qed.

(** *** Refreshing by grant type ([auth.py]) *)



(** *** The credential store of [examples/] *)

(** What a credential looks like after it was dumped and loaded again
    when the clock reads [clock w (ticks w)]: the identifying fields and
    the members of [scopes] come back, and the stored expiry, which is an
    absolute time, has the clock added to it once more. *)
Lemma reload_adds_the_clock (c : OAuth2Credential) (data : credential_data)
    (wd w : World) :
  dump_credential wd c = Ok data ->
  exists client,
    create_lyft_client data w = (Ok client, tick w) /\
    let c' := oauth2credential (session client) in
    client_id c' = client_id c /\ access_token c' = access_token c /\
    grant_type c' = grant_type c /\ client_secret c' = client_secret c /\
    refresh_token c' = refresh_token c /\
    (forall w', list_of_scopes w' (scopes c') = list_of_scopes wd (scopes c)) /\
    cd_expires_in_seconds data = expires_in_seconds c /\
    expires_in_seconds c' = clock w (ticks w) + expires_in_seconds c.
Proof.
  unfold dump_credential. intros Hdump.
  destruct (list_of_scopes wd (scopes c)) as [l | e] eqn:Hl; [| discriminate].
  simpl in Hdump. injection Hdump as <-.
  eexists. split; [reflexivity |]. simpl. repeat split; reflexivity.
Qed.

(** C6, at a concrete input: a credential granted for 3600 seconds when
    the clock reads 1700000000 is dumped and loaded again at that same
    reading.  The stored [expires_in_seconds] is the absolute expiry
    1700003600, and the loaded credential expires at 3400003600: its
    remaining lifetime is 1700003600 seconds, not 3600. *)
Theorem reloaded_credential_expiry_example :
  let w := frozen_world 1700000000 (json_response 200 "OK" token_body) in
  exists c data client,
    OAuth2Credential_init "client-1" (JStr "tok-1") (JInt 3600)
      (SSet {[ "public" ]}) AUTHORIZATION_CODE_GRANT (Some "secret-1")
      (JStr "ref-1") w = (Ok c, tick w) /\
    expires_in_seconds c - clock w (ticks w) = 3600 /\
    dump_credential (tick w) c = Ok data /\
    cd_expires_in_seconds data = 1700003600 /\
    create_lyft_client data (tick w) = (Ok client, tick (tick w)) /\
    expires_in_seconds (oauth2credential (session client)) = 3400003600 /\
    expires_in_seconds (oauth2credential (session client))
      - clock (tick w) (ticks (tick w)) = 1700003600.
Proof.
  intros w. do 3 eexists.
  split; [reflexivity |]. split; [reflexivity |]. split; [reflexivity |].
  split; [reflexivity |]. split; [reflexivity |]. split; reflexivity.
Qed.

(** *** Token requests that are not answered with 200 ([auth.py]) *)

Lemma simple_adapter_never_unknown status kvs r :
  _simple_response_to_error_adapter status kvs <> Raise (UnknownHttpError r).
Proof.
  unfold _simple_response_to_error_adapter.
  destruct (Py.has_key "error_detail" kvs).
  - destruct (Py.iter (Py.get "error_detail" kvs)); discriminate.
  - destruct (Py.has_key "error_description" kvs); discriminate.
Qed.

(** [_adapt_response] raises [UnknownHttpError] exactly on those
    responses, and then with the response itself. *)
Lemma adapt_response_unknown (response : Response) :
  _adapt_response response = Raise (UnknownHttpError response) <->
  unknown_shape response.
Proof.
  unfold _adapt_response, unknown_shape, header_content_type, json_of.
  destruct (content_type response) as [ct |]; simpl.
  2: { split; [discriminate | intros (? & [=] & _)]. }
  destruct (Py.contains "application/json" ct) eqn:Hct.
  2: { split; [| reflexivity]. intros _. exists ct. split; [reflexivity |].
       left. exact Hct. }
  destruct (body response) as [b |]; simpl.
  2: { split; [discriminate |].
       intros (ct' & [= <-] & [Hfalse | (_ & kvs & [=] & _)]). congruence. }
  split.
  - intros H. exists ct. split; [reflexivity |]. right. split; [exact Hct |].
    destruct b as [| | | | | | kvs]; try discriminate H.
    exists kvs. split; [reflexivity |].
    destruct (Py.truthy (Py.get "error" kvs)); [| reflexivity].
    exfalso. exact (simple_adapter_never_unknown _ _ _ H).
  - intros (ct' & [= <-] & [Hfalse | (_ & kvs & [= ->] & ->)]);
      [congruence | reflexivity].
Qed.

Lemma token_request_message_truthy (response : Response) :
  Py.truthy (token_request_message response) = true.
Proof. reflexivity. Qed.

(** C7, as amended: [request_access_token] returns the server's response
    exactly when its status is 200.  For any other status it raises
    [ClientError] with a message that carries the reason phrase when the
    error adapter adapts the response, and [UnknownHttpError] carrying
    the response when its content type is not JSON or its JSON object has
    no [error] that counts as true. *)
Theorem request_access_token_outcome gt cid cs sc code rt (w : World) :
  let data := mkArgs gt cid cs (space_joined w sc) code rt in
  let response := server w (log w) ACCESS_TOKEN_PATH data in
  let outcome := fst (request_access_token gt cid cs sc code rt w) in
  (forall r, outcome = Ok r <-> r = response /\ status_code response = 200) /\
  (status_code response <> 200 ->
   (forall errors meta,
      _adapt_response response = Ok (errors, meta) ->
      outcome =
      Raise (ClientError
               (JStr ("Failed to request access token: " +:+ reason response
                      +:+ "."))
               errors meta response)) /\
   (unknown_shape response -> outcome = Raise (UnknownHttpError response))).
Proof.
  intros data response outcome. subst outcome.
  rewrite request_access_token_run. fold data. fold response. cbn [fst].
  destruct (Z.eqb_spec (status_code response) 200) as [H200 | Hnot].
  - split; [| intros Hne; contradiction].
    intros r. split; [intros [= <-] | intros [-> _]]; auto.
  - split.
    + intros r. unfold raise_from. split.
      * destruct (ClientError_init _ _); discriminate.
      * intros [_ H]. contradiction.
    + intros _. unfold raise_from, ClientError_init.
      rewrite token_request_message_truthy. simpl negb. cbv iota.
      split.
      * intros errors meta Hadapt. rewrite Hadapt. reflexivity.
      * intros Hshape. apply adapt_response_unknown in Hshape.
        rewrite Hshape. reflexivity.
Qed.

Lemma request_access_token_outcome_witness :
  let r := json_response 401 "Unauthorized"
             (JObj [("error", JStr "invalid_client");
                    ("error_description", JStr "bad secret")]) in
  fst (request_access_token CLIENT_CREDENTIAL_GRANT (Some "client-1")
         (Some "secret-1") SNone None JNull (world_with 1000 r)) =
  Raise (ClientError (JStr "Failed to request access token: Unauthorized.")
           [Description (JStr "bad secret")] (JStr "invalid_client") r).
Proof.
  intros r.
  destruct (request_access_token_outcome CLIENT_CREDENTIAL_GRANT
              (Some "client-1") (Some "secret-1") SNone None JNull
              (world_with 1000 r)) as [_ Hfail].
  destruct (Hfail ltac:(discriminate)) as [Hclient _].
  exact (Hclient _ _ eq_refl).
Defined.

(** C7 as stated fails on a 502 answered by a gateway's HTML page: what
    is raised is [UnknownHttpError], not [ClientError]. *)
Lemma request_access_token_raises_unknown_http_error :
  let r := html_response 502 "Bad Gateway" in
  status_code r <> 200 /\
  fst (request_access_token CLIENT_CREDENTIAL_GRANT (Some "client-1")
         (Some "secret-1") SNone None JNull (world_with 1000 r)) =
  Raise (UnknownHttpError r).
Proof. split; [discriminate | reflexivity]. Qed.

(** *** The error adapter ([errors.py]) *)

Lemma get_absent (k : string) (kvs : list (string * json)) :
  Py.has_key k kvs = false -> Py.get k kvs = JNull.
Proof.
  induction kvs as [| [k' v] kvs IH]; simpl; [reflexivity |].
  destruct (String.eqb k k'); simpl; [discriminate | exact IH].
Qed.

Lemma get_present (k : string) (kvs : list (string * json)) :
  Py.get k kvs <> JNull -> Py.has_key k kvs = true.
Proof.
  intros H. destruct (Py.has_key k kvs) eqn:E; [reflexivity |].
  apply get_absent in E. contradiction.
Qed.

(** On a JSON response whose object has an [error] that counts as true,
    [_adapt_response] is the adapter run on that object. *)
Lemma adapt_response_json (response : Response) ct kvs :
  content_type response = Some ct ->
  Py.contains "application/json" ct = true ->
  body response = Some (JObj kvs) ->
  Py.truthy (Py.get "error" kvs) = true ->
  _adapt_response response =
  _simple_response_to_error_adapter (status_code response) kvs.
Proof.
  intros Hct Hjson Hbody Herror.
  unfold _adapt_response, header_content_type, json_of.
  rewrite Hct. simpl. rewrite Hjson, Hbody. simpl. rewrite Herror. reflexivity.
Qed.

(** An array of one-item mappings yields one [ErrorDetails] per entry. *)
Lemma details_of_single_item_entries (pairs : list (string * json)) :
  flat_map details_of_entry (map (fun kv => JObj [kv]) pairs) =
  map (fun kv => ErrorDetails (fst kv) (snd kv)) pairs.
Proof.
  induction pairs as [| kv pairs IH]; simpl; [reflexivity |].
  f_equal. exact IH.
Qed.

(** C8, as amended: on a response whose content type is not JSON, or
    whose JSON object has no top-level [error] that counts as true
    (absent, null, empty, zero or false), constructing either error
    raises [UnknownHttpError] carrying the response.  Otherwise every
    key/value item of every mapping entry of an [error_detail] array
    becomes one [ErrorDetails(parameter, title)], else an
    [error_description] becomes the sole detail; [ClientError] keeps the
    whole list and [ServerError] its first element, if any. *)
Theorem error_adapter_outcomes (response : Response) (message : json) :
  let client_message := if negb (Py.truthy message)
                        then JStr ClientError_default_message else message in
  let server_message := if negb (Py.truthy message)
                        then JStr ServerError_default_message else message in
  (unknown_shape response ->
   ClientError_init response message = Raise (UnknownHttpError response) /\
   ServerError_init response message = Raise (UnknownHttpError response)) /\
  (forall ct kvs,
     content_type response = Some ct ->
     Py.contains "application/json" ct = true ->
     body response = Some (JObj kvs) ->
     Py.truthy (Py.get "error" kvs) = true ->
     let meta := Py.get "error" kvs in
     (forall entries,
        Py.get "error_detail" kvs = JArr entries ->
        let details := flat_map details_of_entry entries in
        ClientError_init response message =
          Ok (ClientError client_message details meta response) /\
        ServerError_init response message =
          Ok (ServerError server_message (head details) meta response)) /\
     (Py.has_key "error_detail" kvs = false ->
      Py.has_key "error_description" kvs = true ->
      let sole := Description (Py.get "error_description" kvs) in
      ClientError_init response message =
        Ok (ClientError client_message [sole] meta response) /\
      ServerError_init response message =
        Ok (ServerError server_message (Some sole) meta response)) /\
     (Py.has_key "error_detail" kvs = false ->
      Py.has_key "error_description" kvs = false ->
      ClientError_init response message =
        Ok (ClientError client_message [] meta response) /\
      ServerError_init response message =
        Ok (ServerError server_message None meta response))).
Proof.
  intros client_message server_message. split.
  - intros Hshape. apply adapt_response_unknown in Hshape.
    unfold ClientError_init, ServerError_init, ServerError_adapt_response.
    rewrite Hshape. split; reflexivity.
  - intros ct kvs Hct Hjson Hbody Herror meta.
    pose proof (adapt_response_json _ _ _ Hct Hjson Hbody Herror) as Hadapt.
    unfold ClientError_init, ServerError_init, ServerError_adapt_response.
    rewrite Hadapt. unfold _simple_response_to_error_adapter.
    split; [| split].
    + intros entries Hentries.
      rewrite (get_present "error_detail" kvs) by (rewrite Hentries; discriminate).
      rewrite Hentries. split; reflexivity.
    + intros Hno Hdesc. rewrite Hno, Hdesc. split; reflexivity.
    + intros Hno Hnodesc. rewrite Hno, Hnodesc. split; reflexivity.
Qed.

Lemma error_adapter_outcomes_witness :
  let invalid :=
    json_response 422 "Unprocessable Entity"
      (JObj [("error", JStr "invalid_request");
             ("error_detail", JArr [JObj [("start_latitude", JStr "is required")]])]) in
  let overloaded :=
    json_response 503 "Service Unavailable"
      (JObj [("error", JStr "server_error");
             ("error_description", JStr "overloaded")]) in
  ClientError_init invalid JNull =
    Ok (ClientError (JStr ClientError_default_message)
          [ErrorDetails "start_latitude" (JStr "is required")]
          (JStr "invalid_request") invalid) /\
  ServerError_init overloaded JNull =
    Ok (ServerError (JStr ServerError_default_message)
          (Some (Description (JStr "overloaded")))
          (JStr "server_error") overloaded) /\
  ServerError_init (html_response 500 "Internal Server Error") JNull =
    Raise (UnknownHttpError (html_response 500 "Internal Server Error")).
Proof.
  intros invalid overloaded. split; [| split].
  - destruct (error_adapter_outcomes invalid JNull) as [_ Hjson].
    destruct (Hjson _ _ eq_refl eq_refl eq_refl eq_refl) as (Hdetail & _ & _).
    exact (proj1 (Hdetail _ eq_refl)).
  - destruct (error_adapter_outcomes overloaded JNull) as [_ Hjson].
    destruct (Hjson _ _ eq_refl eq_refl eq_refl eq_refl) as (_ & Hdesc & _).
    exact (proj2 (Hdesc eq_refl eq_refl)).
  - destruct (error_adapter_outcomes
                (html_response 500 "Internal Server Error") JNull) as [Hunknown _].
    apply Hunknown. exists "text/html". split; [reflexivity |]. left. reflexivity.
Defined.

(** C8 as stated fails on a JSON body that has a top-level [error] field
    holding the empty string: the adapter raises [UnknownHttpError]
    although the field is there, and [error_description] is not used. *)
Lemma empty_error_field_is_unknown :
  let kvs := [("error", JStr ""); ("error_description", JStr "overloaded")] in
  let r := json_response 422 "Unprocessable Entity" (JObj kvs) in
  Py.has_key "error" kvs = true /\
  ClientError_init r JNull = Raise (UnknownHttpError r).
Proof. split; reflexivity. Qed.

(** One mapping entry with two items yields two [ErrorDetails]. *)
Example two_items_two_details :
  flat_map details_of_entry
    [JObj [("start_lat", JStr "is required"); ("start_lng", JStr "is required")]]
  = [ErrorDetails "start_lat" (JStr "is required");
     ErrorDetails "start_lng" (JStr "is required")].
Proof. reflexivity. Qed.

(** *** The pre-check hook ([handlers.py]) *)

(** C9, as amended: [error_handler] returns a response whose status is
    outside 400..599 unchanged.  For a 4XX response whose body is a JSON
    object with a top-level [error_description] or else [error_detail],
    it raises [ClientError] whose message is that literal value (the
    default message when the value counts as false) when the error
    adapter adapts the response, and [UnknownHttpError] with the response
    when the response is of an unknown shape: its content-type header
    does not mention JSON, or it does and the JSON object has no [error]
    that counts as true.  For a 5XX response it raises [ServerError]
    when the adapter adapts the response, and [UnknownHttpError] with the
    response when the response is of an unknown shape. *)
Theorem error_handler_outcomes (response : Response) :
  let status := status_code response in
  (status < 400 \/ 599 < status -> error_handler response = Ok response) /\
  (400 <= status <= 499 ->
   forall kvs,
     body response = Some (JObj kvs) ->
     Py.has_key "error_description" kvs = true \/
     Py.has_key "error_detail" kvs = true ->
     let literal := if Py.has_key "error_description" kvs
                    then Py.get "error_description" kvs
                    else Py.get "error_detail" kvs in
     (forall errors meta,
        _adapt_response response = Ok (errors, meta) ->
        error_handler response =
        Raise (ClientError
                 (if Py.truthy literal then literal
                  else JStr ClientError_default_message)
                 errors meta response)) /\
     (unknown_shape response ->
      error_handler response = Raise (UnknownHttpError response))) /\
  (500 <= status <= 599 ->
   (forall errors meta,
      _adapt_response response = Ok (errors, meta) ->
      error_handler response =
      Raise (ServerError (JStr ServerError_default_message) (head errors) meta
               response)) /\
   (unknown_shape response ->
    error_handler response = Raise (UnknownHttpError response))).
Proof.
  intros status. unfold error_handler. fold status. split; [| split].
  - intros Hout.
    replace ((400 <=? status) && (status <=? 499)) with false
      by (symmetry; apply andb_false_iff; rewrite Z.leb_gt, Z.leb_gt; lia).
    replace ((500 <=? status) && (status <=? 599)) with false
      by (symmetry; apply andb_false_iff; rewrite Z.leb_gt, Z.leb_gt; lia).
    reflexivity.
  - intros H4 kvs Hbody Hkey.
    set (literal := if Py.has_key "error_description" kvs
                    then Py.get "error_description" kvs
                    else Py.get "error_detail" kvs).
    replace ((400 <=? status) && (status <=? 499)) with true
      by (symmetry; apply andb_true_iff; rewrite Z.leb_le, Z.leb_le; lia).
    unfold json_of. rewrite Hbody. cbn [rbind].
    assert (Hmsg : client_error_message (JObj kvs) = Ok literal).
    { unfold client_error_message. subst literal.
      destruct (Py.has_key "error_description" kvs); [reflexivity |].
      destruct Hkey as [Hk | Hk]; [discriminate | rewrite Hk; reflexivity]. }
    rewrite Hmsg. cbn [rbind]. unfold raise_from, ClientError_init. split.
    + intros errors meta Hadapt. rewrite Hadapt. cbn [rbind].
      destruct (Py.truthy literal); reflexivity.
    + intros Hshape. apply adapt_response_unknown in Hshape.
      rewrite Hshape. reflexivity.
  - intros H5.
    replace ((400 <=? status) && (status <=? 499)) with false
      by (symmetry; apply andb_false_iff; rewrite Z.leb_gt, Z.leb_gt; lia).
    replace ((500 <=? status) && (status <=? 599)) with true
      by (symmetry; apply andb_true_iff; rewrite Z.leb_le, Z.leb_le; lia).
    unfold raise_from, ServerError_init, ServerError_adapt_response. split.
    + intros errors meta Hadapt. rewrite Hadapt. reflexivity.
    + intros Hshape. apply adapt_response_unknown in Hshape.
      rewrite Hshape. reflexivity.
Qed.

Lemma error_handler_outcomes_witness :
  let unauthorized :=
    json_response 401 "Unauthorized"
      (JObj [("error", JStr "invalid_token");
             ("error_description", JStr "token expired")]) in
  let overloaded :=
    json_response 503 "Service Unavailable"
      (JObj [("error", JStr "server_error");
             ("error_description", JStr "overloaded")]) in
  error_handler (json_response 200 "OK" token_body) =
    Ok (json_response 200 "OK" token_body) /\
  error_handler unauthorized =
    Raise (ClientError (JStr "token expired")
             [Description (JStr "token expired")] (JStr "invalid_token")
             unauthorized) /\
  error_handler overloaded =
    Raise (ServerError (JStr ServerError_default_message)
             (Some (Description (JStr "overloaded"))) (JStr "server_error")
             overloaded).
Proof.
  intros unauthorized overloaded. split; [| split].
  - destruct (error_handler_outcomes (json_response 200 "OK" token_body))
      as (Hother & _ & _).
    apply Hother. left. simpl. lia.
  - destruct (error_handler_outcomes unauthorized) as (_ & Hclient & _).
    destruct (Hclient ltac:(simpl; lia) _ eq_refl (or_introl eq_refl))
      as [Hraise _].
    exact (Hraise _ _ eq_refl).
  - destruct (error_handler_outcomes overloaded) as (_ & _ & Hserver).
    destruct (Hserver ltac:(simpl; lia)) as [Hraise _].
    exact (Hraise _ _ eq_refl).
Defined.

(** C9 as stated fails on a 503 answered with an HTML page: the hook
    raises [UnknownHttpError], not [ServerError]. *)
Lemma error_handler_raises_unknown_http_error :
  let r := html_response 503 "Service Unavailable" in
  500 <= status_code r <= 599 /\
  error_handler r = Raise (UnknownHttpError r).
Proof. split; [simpl; lia | reflexivity]. Qed.

(** A 4XX response with neither [error_description] nor [error_detail]
    makes the hook fail on the subscript, outside the library's taxonomy;
    so does a 4XX response whose body is not JSON. *)
Example error_handler_key_error :
  error_handler (json_response 404 "Not Found"
                   (JObj [("error", JStr "not_found")])) =
  Raise (Builtin (KeyError "error_detail")) /\
  error_handler (html_response 404 "Not Found") = Raise (Builtin ValueError).
Proof. split; reflexivity. Qed.

(** *** Scopes of a granted credential ([session.py]) *)

Lemma flush_tokens (tok : string) :
  Forall (fun t => t <> "" /\
                   Forall (fun c => Py.isspace c = false) (list_ascii_of_string t))
         (Py.flush tok) <->
  (tok = "" \/ Forall (fun c => Py.isspace c = false) (list_ascii_of_string tok)).
Proof.
  destruct tok as [| c tok]; simpl.
  - split; [intros _; left; reflexivity | intros _; constructor].
  - split.
    + intros H. inversion H as [| ? ? [_ Hc] _]; subst. right. exact Hc.
    + intros [Hc | Hc]; [discriminate |].
      constructor; [split; [discriminate | exact Hc] | constructor].
Qed.

Lemma list_ascii_of_string_app (s t : string) :
  list_ascii_of_string (s +:+ t) = list_ascii_of_string s ++ list_ascii_of_string t.
Proof. induction s as [| c s IH]; simpl; [reflexivity | f_equal; exact IH]. Qed.

(** Every token of [s.split()] is non-empty and free of whitespace. *)
Lemma split_from_tokens (s tok : string) :
  Forall (fun c => Py.isspace c = false) (list_ascii_of_string tok) ->
  Forall (fun t => t <> "" /\
                   Forall (fun c => Py.isspace c = false) (list_ascii_of_string t))
         (Py.split_from tok s).
Proof.
  revert tok. induction s as [| c s IH]; intros tok Htok; simpl.
  - apply flush_tokens. right. exact Htok.
  - destruct (Py.isspace c) eqn:Hc.
    + apply Forall_app. split.
      * apply flush_tokens. right. exact Htok.
      * apply IH. constructor.
    + apply IH. rewrite list_ascii_of_string_app. apply Forall_app.
      split; [exact Htok |]. simpl. constructor; [exact Hc | constructor].
Qed.

Lemma split_tokens (s : string) :
  Forall (fun t => t <> "" /\
                   Forall (fun c => Py.isspace c = false) (list_ascii_of_string t))
         (Py.split s).
Proof. apply split_from_tokens. constructor. Qed.

(** C10, as amended: from a 200 response whose JSON object has a string
    [scope] and an [expires_in] that [int] converts in the run at hand,
    [make_from_response] returns a credential whose scopes are the set of
    the whitespace-separated tokens of that string, each of them
    non-empty and free of whitespace.  From a 200 response whose JSON
    object has no [scope] it returns no credential and raises an error
    that is not of the library's taxonomy. *)
Theorem make_from_response_scopes (r : Response) (gt cid : string)
    (cs : option string) (w : World) :
  (forall kvs scope seconds,
     token_response w r kvs scope seconds ->
     exists c,
       make_from_response r gt cid cs w = (Ok c, tick w) /\
       scopes c = SSet (list_to_set (Py.split scope)) /\
       expires_in_seconds c = clock w (ticks w) + seconds /\
       Forall (fun t => t <> "" /\
                        Forall (fun c => Py.isspace c = false)
                               (list_ascii_of_string t))
              (Py.split scope)) /\
  (forall kvs,
     status_code r = 200 -> body r = Some (JObj kvs) ->
     Py.has_key "scope" kvs = false ->
     make_from_response r gt cid cs w = (Raise (Builtin AttributeError), w) /\
     is_APIError (Builtin AttributeError) = false).
Proof.
  split.
  - intros kvs scope seconds Hr. eexists.
    split; [apply (make_from_response_200 _ _ _ _ _ _ _ _ Hr) |].
    split; [reflexivity |]. split; [reflexivity | apply split_tokens].
  - intros kvs Hstatus Hbody Hscope. split; [| reflexivity].
    unfold make_from_response, json_of. rewrite Hstatus, Hbody. simpl.
    unfold bind, lift. rewrite (get_absent _ _ Hscope). reflexivity.
Qed.

Lemma make_from_response_scopes_witness :
  let w := world_with 1000 (json_response 200 "OK" token_body) in
  (exists c,
     make_from_response (json_response 200 "OK" token_body)
       CLIENT_CREDENTIAL_GRANT "client-1" (Some "secret-1") w = (Ok c, tick w) /\
     scopes c = SSet (list_to_set ["public"; "rides.read"]) /\
     expires_in_seconds c = 4600) /\
  make_from_response
    (json_response 200 "OK" (JObj [("access_token", JStr "tok-2");
                                   ("expires_in", JInt 3600)]))
    CLIENT_CREDENTIAL_GRANT "client-1" (Some "secret-1") w =
  (Raise (Builtin AttributeError), w).
Proof.
  intros w. split.
  - destruct (make_from_response_scopes (json_response 200 "OK" token_body)
                CLIENT_CREDENTIAL_GRANT "client-1" (Some "secret-1") w)
      as [Hgranted _].
    destruct (Hgranted _ "public rides.read" 3600
                ltac:(repeat split; reflexivity))
      as (c & Hrun & Hscopes & Hexpiry & _).
    exists c. split; [exact Hrun |]. split; [exact Hscopes | exact Hexpiry].
  - destruct (make_from_response_scopes
                (json_response 200 "OK" (JObj [("access_token", JStr "tok-2");
                                               ("expires_in", JInt 3600)]))
                CLIENT_CREDENTIAL_GRANT "client-1" (Some "secret-1") w)
      as [_ Hmissing].
    exact (proj1 (Hmissing _ eq_refl eq_refl eq_refl)).
Defined.

(** C10 as stated fails on a 200 response that has a string [scope] but
    no [expires_in]: no credential is returned, [int(None)] raises. *)
Lemma string_scope_is_not_enough :
  let kvs := [("access_token", JStr "tok-2"); ("scope", JStr "public")] in
  let w := world_with 1000 (json_response 200 "OK" (JObj kvs)) in
  Py.get "scope" kvs = JStr "public" /\
  make_from_response (json_response 200 "OK" (JObj kvs))
    CLIENT_CREDENTIAL_GRANT "client-1" (Some "secret-1") w =
  (Raise (Builtin TypeError), tick w).
Proof. split; reflexivity. Qed.

(** ** Further properties *)

(** *** Scopes on the wire ([auth.py], [session.py]) *)

Lemma append_empty_r (s : string) : s +:+ "" = s.
Proof.
  induction s as [| c s IH]; [reflexivity |].
  change (String c (s +:+ "") = String c s). f_equal. exact IH.
Qed.

Lemma append_assoc (s t u : string) : (s +:+ t) +:+ u = s +:+ (t +:+ u).
Proof.
  induction s as [| c s IH]; [reflexivity |].
  change (String c ((s +:+ t) +:+ u) = String c (s +:+ (t +:+ u))).
  f_equal. exact IH.
Qed.

(** Scanning over a run of non-whitespace characters only grows the
    pending token. *)
Lemma split_from_run (t tok rest : string) :
  Forall (fun c => Py.isspace c = false) (list_ascii_of_string t) ->
  Py.split_from tok (t +:+ rest) = Py.split_from (tok +:+ t) rest.
Proof.
  revert tok. induction t as [| c t IH]; intros tok Hrun; simpl.
  - rewrite append_empty_r. reflexivity.
  - inversion Hrun as [| ? ? Hc Ht]; subst. rewrite Hc.
    rewrite (IH _ Ht), append_assoc. reflexivity.
Qed.

Lemma split_from_space (tok rest : string) :
  Py.split_from tok (String " "%char rest) = Py.flush tok ++ Py.split_from "" rest.
Proof. reflexivity. Qed.

(** [split] undoes [' '.join] on clean scope names. *)
Lemma split_join (l : list string) :
  Forall clean_scope l -> Py.split (Py.join " " l) = l.
Proof.
  unfold Py.split. induction l as [| t l IH]; intros Hall; [reflexivity |].
  inversion Hall as [| ? ? [Hne Hrun] Hl]; subst.
  assert (Hflush : Py.flush t = [t]) by (destruct t; [contradiction | reflexivity]).
  destruct l as [| t' l].
  - change (Py.join " " [t]) with t. rewrite <- (append_empty_r t) at 1.
    rewrite (split_from_run _ _ _ Hrun). exact Hflush.
  - change (Py.join " " (t :: t' :: l))
      with (t +:+ String " "%char (Py.join " " (t' :: l))).
    rewrite (split_from_run _ _ _ Hrun). change ("" +:+ t) with t.
    rewrite split_from_space, Hflush, (IH Hl). reflexivity.
Qed.

(** X1: the scopes survive the wire format in every run.  Whatever the
    order in which the run visits a set of clean scope names,
    [request_access_token] sends them as one string, and a credential
    made from an acceptable response that echoes this string holds
    exactly the set that was sent. *)
Theorem echoed_scopes_round_trip (s : gset string) (g : string)
    (ocid ocs : option string) (code : option string) (rt : json) (w : World) :
  set_order w s ≡ₚ elements s ->
  (forall t, t ∈ s -> clean_scope t) ->
  exists sent,
    log (snd (request_access_token g ocid ocs (SSet s) code rt w)) =
      log w ++ [Post ACCESS_TOKEN_PATH (ocid, ocs)
                  (mkArgs g ocid ocs (SStr sent) code rt)] /\
    forall (w' : World) r kvs seconds gt cid cs,
      token_response w' r kvs sent seconds ->
      exists c,
        make_from_response r gt cid cs w' = (Ok c, tick w') /\
        scopes c = SSet s.
Proof.
  intros Horder Hclean. exists (Py.join " " (set_order w s)). split.
  - rewrite request_access_token_run. reflexivity.
  - intros w' r kvs seconds gt cid cs Hr. eexists.
    split; [apply (make_from_response_200 _ _ _ _ _ _ _ _ Hr) |].
    unfold granted. cbn [scopes]. f_equal. rewrite split_join.
    + rewrite Horder. apply list_to_set_elements_L.
    + apply Forall_forall. intros t Ht. apply Hclean.
      apply elem_of_elements. rewrite <- Horder. exact Ht.
Qed.

Lemma echoed_scopes_round_trip_witness :
  let s : gset string := {[ "public"; "rides.read" ]} in
  let w := reversed_world 1000 (json_response 200 "OK" token_body) in
  exists sent,
    log (snd (request_access_token CLIENT_CREDENTIAL_GRANT (Some "client-1")
                (Some "secret-1") (SSet s) None JNull w)) =
      [Post ACCESS_TOKEN_PATH (Some "client-1", Some "secret-1")
         (mkArgs CLIENT_CREDENTIAL_GRANT (Some "client-1") (Some "secret-1")
            (SStr sent) None JNull)] /\
    exists c,
      make_from_response
        (json_response 200 "OK"
           (JObj [("expires_in", JInt 3600); ("scope", JStr sent)]))
        CLIENT_CREDENTIAL_GRANT "client-1" None w = (Ok c, tick w) /\
      scopes c = SSet s.
Proof.
  intros s w.
  destruct (echoed_scopes_round_trip s CLIENT_CREDENTIAL_GRANT (Some "client-1")
              (Some "secret-1") None JNull w) as (sent & Hlog & Hback).
  - symmetry. apply Permutation_rev.
  - intros t Ht. apply elem_of_union in Ht as [Ht | Ht];
      apply elem_of_singleton in Ht; subst t;
      (split; [discriminate | repeat constructor]).
  - exists sent. split; [exact Hlog |].
    apply (Hback w _ [("expires_in", JInt 3600); ("scope", JStr sent)] 3600).
    repeat split; reflexivity.
Defined.

(** *** Token exchanges: what can come out ([auth.py], [session.py]) *)

(** A credential that was made from a response took its identity from
    the caller, read the clock once, and the response had status 200. *)
Lemma make_from_response_fields r gt cid cs (w w' : World) c :
  make_from_response r gt cid cs w = (Ok c, w') ->
  client_id c = cid /\ grant_type c = gt /\ client_secret c = cs /\
  w' = tick w /\ status_code r = 200.
Proof.
  unfold make_from_response.
  destruct (Z.eqb_spec (status_code r) 200) as [H200 | Hnot]; simpl.
  2: { unfold lift, raise_from. destruct (ClientError_init _ _); discriminate. }
  unfold bind at 1, lift at 1. destruct (json_of r) as [b | e]; [| discriminate].
  destruct b as [| | | | | | kvs]; try discriminate.
  destruct (Py.get "scope" kvs); try discriminate.
  unfold OAuth2Credential_init, bind, _now, py_int, lift, ret.
  destruct (of_builtin (Py.int _ (Py.get "expires_in" kvs))); [| discriminate].
  intros [= <- <-]. repeat split; assumption.
Qed.

(** On a response with status 200, [make_from_response] raises nothing
    of the library's taxonomy: its own status check is the only place
    where it raises an [APIError]. *)
Lemma make_from_response_200_raises_builtin r gt cid cs (w w' : World) e :
  status_code r = 200 ->
  make_from_response r gt cid cs w = (Raise e, w') ->
  is_APIError e = false.
Proof.
  intros H200. unfold make_from_response. rewrite H200. simpl.
  unfold bind at 1, lift at 1. unfold json_of.
  destruct (body r) as [b |]; [| intros [= <- _]; reflexivity].
  destruct b as [| | | | | | kvs]; try (intros [= <- _]; reflexivity).
  destruct (Py.get "scope" kvs); try (intros [= <- _]; reflexivity).
  unfold OAuth2Credential_init, bind, _now, py_int, lift, ret, of_builtin.
  destruct (Py.int _ (Py.get "expires_in" kvs)); [| discriminate].
  intros [= <- _]. reflexivity.
Qed.

(** The three steps every flow ends with: request, credential, session. *)
Lemma token_exchange_run g ocid ocs sc code rt gt cid cs (w : World) :
  let data := mkArgs g ocid ocs (space_joined w sc) code rt in
  let response := server w (log w) ACCESS_TOKEN_PATH data in
  let w1 := record (Post ACCESS_TOKEN_PATH (ocid, ocs) data) w in
  (response <- request_access_token g ocid ocs sc code rt ;;
   oauth2credential <- make_from_response response gt cid cs ;;
   lift (Session_init (Some oauth2credential))) w =
  if status_code response =? 200 then
    match make_from_response response gt cid cs w1 with
    | (Ok c, w2) => (Ok (mkSession c OAUTH_TOKEN_TYPE), w2)
    | (Raise e, w2) => (Raise e, w2)
    end
  else (raise_from (ClientError_init response (token_request_message response)),
        w1).
Proof.
  intros data response w1. unfold bind at 1.
  rewrite request_access_token_run. fold data. fold response. fold w1.
  destruct (status_code response =? 200).
  - unfold bind.
    destruct (make_from_response response gt cid cs w1) as [[c | e] w2];
      reflexivity.
  - unfold raise_from. destruct (ClientError_init _ _); reflexivity.
Qed.



(** X3: once the redirect is verified, [AuthorizationCodeGrant.get_session]
    sends exactly one token request, for [authorization_code], carrying
    the verified code and neither scopes nor a refresh token.  An
    acceptable 200 response makes it return a session around the granted
    credential, and a later refresh of that credential sends the
    [refresh_token] of that response with the grant's client id and
    secret. *)
Theorem authorization_code_get_session_exchange (self : AuthorizationCodeGrant)
    (redirect_url : string) (w : World) (qs : string)
    (authorization_code : option string) :
  let parsed := parse_qs w qs in
  let query_params : gmap string string := omap head parsed in
  let data := mkArgs AUTHORIZATION_CODE_GRANT (Some (acg_client_id self))
                (Some (acg_client_secret self)) SNone authorization_code JNull in
  let auth := (Some (acg_client_id self), Some (acg_client_secret self)) in
  let response := server w (log w) ACCESS_TOKEN_PATH data in
  let run := AuthorizationCodeGrant_get_session self redirect_url w in
  urlparse_query w redirect_url = Some qs ->
  nonempty_values parsed ->
  _verify_query self query_params = Ok authorization_code ->
  log (snd run) = log w ++ [Post ACCESS_TOKEN_PATH auth data] /\
  (forall kvs scope seconds,
     token_response w response kvs scope seconds ->
     let c := granted kvs scope seconds (clock w (ticks w))
                AUTHORIZATION_CODE_GRANT (acg_client_id self)
                (Some (acg_client_secret self)) in
     run = (Ok (mkSession c OAUTH_TOKEN_TYPE),
            tick (record (Post ACCESS_TOKEN_PATH auth data) w)) /\
     forall w', log (snd (refresh_access_token c w')) =
                log w' ++ [Post ACCESS_TOKEN_PATH auth
                             (mkArgs REFRESH_TOKEN (Some (acg_client_id self))
                                (Some (acg_client_secret self)) SNone None
                                (Py.get "refresh_token" kvs))]).
Proof.
  intros parsed query_params data auth response run Hqs Hne Hv. subst run.
  rewrite (get_session_verified self redirect_url w qs Hqs Hne _ Hv).
  rewrite token_exchange_run. cbv zeta. change (space_joined w SNone) with SNone.
  fold data. fold response. set (w1 := record _ w). split.
  - destruct (status_code response =? 200); [| reflexivity].
    pose proof (make_from_response_log response AUTHORIZATION_CODE_GRANT
                  (acg_client_id self) (Some (acg_client_secret self)) w1) as Hlog.
    destruct (make_from_response _ _ _ _ w1) as [[c | e] w2]; exact Hlog.
  - intros kvs scope seconds Hr. split.
    + destruct Hr as (H200 & Hrest). rewrite H200. simpl Z.eqb. cbv iota.
      rewrite (make_from_response_200 response kvs scope seconds _ _ _ w1)
        by (split; assumption).
      reflexivity.
    + intros w'. rewrite refresh_access_token_log. reflexivity.
Qed.

Lemma authorization_code_get_session_exchange_witness :
  let self := mkCodeGrant "client-1" SNone "secret-1" (Some "xyz") in
  let w := world_with 1000 (json_response 200 "OK" token_body) in
  log (snd (AuthorizationCodeGrant_get_session self
              "https://app.example/cb?state=xyz&code=abc" w)) =
  [Post ACCESS_TOKEN_PATH (Some "client-1", Some "secret-1")
     (mkArgs "authorization_code" (Some "client-1") (Some "secret-1") SNone
        (Some "abc") JNull)].
Proof.
  intros self w.
  refine (proj1 (authorization_code_get_session_exchange self
                   "https://app.example/cb?state=xyz&code=abc" w _ (Some "abc")
                   eq_refl _ eq_refl)).
  apply (bool_decide_unpack _). vm_compute. exact I.
Defined.

(** *** What a verified redirect looks like ([auth.py]) *)

(** X4: when no value of the query is blank, [_verify_query] returns only
    on a redirect whose [state] is the stored token, that carries a
    [code] and no [error]; what it returns is that code, never [None]. *)
Theorem verified_redirect_carries_only_code (self : AuthorizationCodeGrant)
    (query_params : gmap string string) (result : option string) :
  (forall k v, query_params !! k = Some v -> v <> "") ->
  _verify_query self query_params = Ok result ->
  exists code,
    result = Some code /\ code <> "" /\
    query_params !! "code" = Some code /\
    query_params !! "error" = None /\
    query_params !! "state" = state_token self /\
    is_Some (state_token self).
Proof.
  intros Hnb. unfold _verify_query.
  destruct (_verify_query_state self query_params) as [[] | e] eqn:Hstate;
    [| discriminate].
  apply verify_query_state_ok in Hstate as (token & Hq & Ht).
  simpl. unfold _verify_query_code, CODE_RESPONSE_TYPE.
  destruct (query_params !! "error") as [error |] eqn:Herror.
  - pose proof (Hnb _ _ Herror) as Hne.
    assert (Htruthy : Py.str_truthy error = true).
    { unfold Py.str_truthy. destruct (String.eqb_spec error "");
        [contradiction | reflexivity]. }
    simpl. rewrite Htruthy. simpl.
    destruct (Py.opt_truthy (query_params !! "code")); discriminate.
  - simpl. destruct (query_params !! "code") as [code |] eqn:Hcode;
      simpl; [| discriminate].
    intros [= <-]. exists code. repeat split; try reflexivity.
    + exact (Hnb _ _ Hcode).
    + rewrite Hq, Ht. reflexivity.
    + rewrite Ht. eexists. reflexivity.
Qed.

Lemma verified_redirect_carries_only_code_witness :
  let self := mkCodeGrant "client-1" SNone "secret-1" (Some "xyz") in
  let query : gmap string string := {[ "state" := "xyz"; "code" := "abc" ]} in
  exists code, query !! "code" = Some code /\ query !! "error" = None.
Proof.
  intros self query.
  destruct (verified_redirect_carries_only_code self query (Some "abc"))
    as (code & _ & _ & Hcode & Herror & _).
  - assert (Hall : map_Forall (fun _ v => v <> "") query)
      by (apply (bool_decide_unpack _); vm_compute; exact I).
    intros k v Hk. exact (Hall k v Hk).
  - reflexivity.
  - exists code. split; assumption.
Defined.

(** *** The grant's state token ([auth.py]) *)

(** X5: a grant built by [AuthorizationCodeGrant.__init__] always holds a
    state token: the one supplied, else the generated one.  So
    verification never fails for want of a stored token, and a redirect
    passes the state check exactly when its [state] is that token. *)
Theorem constructed_grant_holds_state_token (SANDBOX_MODE_PREFIX generated
    client_id client_secret : string) (scopes : scopes_value)
    (is_sandbox_mode : bool) (supplied : option string)
    (query_params : gmap string string) :
  let self := AuthorizationCodeGrant_init SANDBOX_MODE_PREFIX generated
                client_id client_secret scopes is_sandbox_mode supplied in
  state_token self = Some (default generated supplied) /\
  _verify_query_state self query_params <>
    Raise (LyftIllegalState "Missing CSRF State Token in session.") /\
  (_verify_query_state self query_params = Ok tt <->
   query_params !! "state" = Some (default generated supplied)).
Proof.
  intros self.
  assert (Htoken : state_token self = Some (default generated supplied))
    by (destruct supplied; reflexivity).
  split; [exact Htoken |]. split.
  - unfold _verify_query_state. rewrite Htoken.
    destruct (query_params !! "state") as [received |]; [| discriminate].
    destruct (negb _); discriminate.
  - rewrite verify_query_state_ok, Htoken. split.
    + intros (token & Hq & [= <-]). exact Hq.
    + intros Hq. eexists. split; [exact Hq | reflexivity].
Qed.

Lemma constructed_grant_holds_state_token_witness :
  let self := AuthorizationCodeGrant_init "SANDBOX" "r4nd0m" "client-1"
                "secret-1" SNone true None in
  _verify_query_state self {[ "state" := "r4nd0m" ]} = Ok tt.
Proof.
  intros self.
  destruct (constructed_grant_holds_state_token "SANDBOX" "r4nd0m" "client-1"
              "secret-1" SNone true None {[ "state" := "r4nd0m" ]})
    as (_ & _ & Hiff).
  apply Hiff. reflexivity.
Defined.

Lemma choices_alphanumeric :
  forallb alphanumeric (list_ascii_of_string (ascii_letters +:+ digits)) = true.
Proof. reflexivity. Qed.

(** X6: a generated state token has the requested length and consists
    of letters and digits only, whatever the random source picks from the
    alphabet it is handed. *)
Theorem generated_state_token_shape (choice : string -> nat -> ascii) (n : nat) :
  (forall i, In (choice (ascii_letters +:+ digits) i)
                (list_ascii_of_string (ascii_letters +:+ digits))) ->
  String.length (_generate_state_token choice n) = n /\
  Forall (fun c => alphanumeric c = true)
         (list_ascii_of_string (_generate_state_token choice n)).
Proof.
  intros Hchoice. unfold _generate_state_token. cbv zeta.
  set (choices := ascii_letters +:+ digits) in *.
  assert (Hlen : forall l, String.length (string_of_list_ascii l) = length l).
  { induction l as [| c l IH]; simpl; [reflexivity | f_equal; exact IH]. }
  split.
  - rewrite Hlen, length_map, length_seq. reflexivity.
  - rewrite list_ascii_of_string_of_list_ascii. apply Forall_forall.
    intros c Hc. apply list_elem_of_In, in_map_iff in Hc as (i & <- & _).
    exact (proj1 (forallb_forall _ _) choices_alphanumeric _ (Hchoice i)).
Qed.

Lemma generated_state_token_shape_witness :
  String.length (_generate_state_token (fun _ _ => "k"%char) 32) = 32%nat /\
  Forall (fun c => alphanumeric c = true)
         (list_ascii_of_string (_generate_state_token (fun _ _ => "k"%char) 32)).
Proof.
  apply (generated_state_token_shape (fun _ _ => "k"%char) 32).
  intros _. simpl. do 10 right. left. reflexivity.
Defined.

(** *** The authorization URL ([auth.py]) *)

(** X7: for a grant built by the constructor, [get_authorization_url]
    raises [LyftIllegalState] when [code] is not among the valid response
    types, whatever the scopes are; otherwise it fails with a built-in
    error on scopes that are [None], and on scopes that can be joined it
    hands [build_url] the arguments [scope], [state], [response_type] and
    [client_id], in this order, with the grant's state token as [state].
    A redirect that brings this [state] back passes the state check. *)
Theorem authorization_url_carries_state_token (VALID_RESPONSE_TYPES : list string)
    (SANDBOX_MODE_PREFIX generated client_id client_secret : string)
    (scopes : scopes_value) (is_sandbox_mode : bool) (supplied : option string)
    (w : World) :
  let self := AuthorizationCodeGrant_init SANDBOX_MODE_PREFIX generated
                client_id client_secret scopes is_sandbox_mode supplied in
  let token := default generated supplied in
  (CODE_RESPONSE_TYPE ∉ VALID_RESPONSE_TYPES ->
   get_authorization_url VALID_RESPONSE_TYPES w self =
   Raise (LyftIllegalState "code is not a valid response type.")) /\
  (CODE_RESPONSE_TYPE ∈ VALID_RESPONSE_TYPES ->
   (scopes = SNone ->
    get_authorization_url VALID_RESPONSE_TYPES w self = Raise (Builtin TypeError)) /\
   (forall scope,
      joined_scopes w scopes = Ok scope ->
      get_authorization_url VALID_RESPONSE_TYPES w self =
      Ok (mkAuthRequest SERVER_HOST AUTHORIZE_PATH
            [("scope", JStr scope); ("state", JStr token);
             ("response_type", JStr "code"); ("client_id", JStr client_id)]) /\
      forall query_params : gmap string string,
        query_params !! "state" = Some token ->
        _verify_query_state self query_params = Ok tt)).
Proof.
  intros self token.
  assert (Htoken : state_token self = Some token)
    by (destruct supplied; reflexivity).
  unfold get_authorization_url, _build_authorization_request_url.
  split.
  - intros Hout. rewrite (bool_decide_eq_false_2 _ Hout). reflexivity.
  - intros Hin. rewrite (bool_decide_eq_true_2 _ Hin). simpl negb. cbv iota.
    split.
    + intros ->. reflexivity.
    + intros scope Hscope. split.
      * change (acg_scopes self) with scopes. rewrite Hscope, Htoken.
        reflexivity.
      * intros query_params Hq. apply verify_query_state_ok.
        exists token. split; assumption.
Qed.

Lemma authorization_url_carries_state_token_witness :
  let self := AuthorizationCodeGrant_init "SANDBOX" "r4nd0m" "client-1"
                "secret-1" (SList ["public"; "profile"]) true None in
  get_authorization_url ["code"] (world_with 1000 (json_response 200 "OK" token_body)) self =
    Ok (mkAuthRequest SERVER_HOST AUTHORIZE_PATH
          [("scope", JStr "public profile"); ("state", JStr "r4nd0m");
           ("response_type", JStr "code"); ("client_id", JStr "client-1")]) /\
  get_authorization_url ["token"] (world_with 1000 (json_response 200 "OK" token_body)) self =
    Raise (LyftIllegalState "code is not a valid response type.").
Proof.
  intros self. split.
  - destruct (authorization_url_carries_state_token ["code"] "SANDBOX" "r4nd0m"
                "client-1" "secret-1" (SList ["public"; "profile"]) true None
                (world_with 1000 (json_response 200 "OK" token_body)))
      as [_ Hvalid].
    destruct (Hvalid ltac:(apply list_elem_of_In; left; reflexivity))
      as [_ Hargs].
    exact (proj1 (Hargs "public profile" eq_refl)).
  - destruct (authorization_url_carries_state_token ["token"] "SANDBOX" "r4nd0m"
                "client-1" "secret-1" (SList ["public"; "profile"]) true None
                (world_with 1000 (json_response 200 "OK" token_body)))
      as [Hinvalid _].
    apply Hinvalid. intros Hin. apply list_elem_of_In in Hin.
    destruct Hin as [Hin | []]. discriminate Hin.
Defined.

(** *** What the errors carry ([errors.py], [handlers.py]) *)

(** What [_adapt_response] returns comes from a JSON object with an
    [error] that counts as true, under a JSON content type. *)
Lemma adapt_response_ok (response : Response) errors meta :
  _adapt_response response = Ok (errors, meta) ->
  exists ct kvs,
    content_type response = Some ct /\
    Py.contains "application/json" ct = true /\
    body response = Some (JObj kvs) /\
    Py.truthy (Py.get "error" kvs) = true /\
    meta = Py.get "error" kvs /\
    _simple_response_to_error_adapter (status_code response) kvs =
      Ok (errors, meta).
Proof.
  unfold _adapt_response, header_content_type, json_of.
  destruct (content_type response) as [ct |]; [| discriminate]. simpl.
  destruct (Py.contains "application/json" ct) eqn:Hct; [| discriminate].
  destruct (body response) as [b |]; [| discriminate]. simpl.
  destruct b as [| | | | | | kvs]; try discriminate.
  destruct (Py.truthy (Py.get "error" kvs)) eqn:Herr; [| discriminate].
  intros Hadapt. exists ct, kvs. repeat split; try assumption; try reflexivity.
  revert Hadapt. unfold _simple_response_to_error_adapter.
  destruct (Py.has_key "error_detail" kvs).
  - destruct (of_builtin _); [| discriminate]. intros [= _ <-]. reflexivity.
  - destruct (Py.has_key "error_description" kvs); intros [= _ <-]; reflexivity.
Qed.

(** Of the library's own errors, [_adapt_response] raises only
    [UnknownHttpError], and only with the response it was given. *)
Lemma adapt_response_api_error (response : Response) (e : exn) :
  _adapt_response response = Raise e -> is_APIError e = true ->
  e = UnknownHttpError response.
Proof.
  unfold _adapt_response, header_content_type, json_of.
  destruct (content_type response) as [ct |]; simpl;
    [| intros [= <-]; discriminate].
  destruct (Py.contains "application/json" ct); [| intros [= <-]; reflexivity].
  destruct (body response) as [b |]; simpl; [| intros [= <-]; discriminate].
  destruct b as [| | | | | | kvs]; try (intros [= <-]; discriminate).
  destruct (Py.truthy (Py.get "error" kvs)); [| intros [= <-]; reflexivity].
  unfold _simple_response_to_error_adapter.
  destruct (Py.has_key "error_detail" kvs).
  - unfold of_builtin. destruct (Py.iter _); simpl; [| discriminate].
    intros [= <-]. discriminate.
  - destruct (Py.has_key "error_description" kvs); discriminate.
Qed.

(** X8: [error_handler] hands back only responses whose status is
    outside 400..599, and those unchanged; on every 4XX and 5XX response
    it raises. *)
Theorem error_handler_returns_no_error_status (response returned : Response) :
  error_handler response = Ok returned <->
  returned = response /\
  (status_code response < 400 \/ 599 < status_code response).
Proof.
  unfold error_handler.
  assert (Hraise : forall c : result exn, raise_from c <> Ok returned)
    by (intros [e | e]; discriminate).
  destruct ((400 <=? status_code response) && (status_code response <=? 499))
    eqn:H4.
  - apply andb_true_iff in H4 as [Hlo Hhi].
    apply Z.leb_le in Hlo. apply Z.leb_le in Hhi. split.
    + destruct (json_of response) as [b | e]; [| discriminate]. simpl.
      destruct (client_error_message b) as [message | e]; [| discriminate].
      simpl. intros H. exfalso. exact (Hraise _ H).
    + intros [_ Hout]. lia.
  - destruct ((500 <=? status_code response) && (status_code response <=? 599))
      eqn:H5.
    + apply andb_true_iff in H5 as [Hlo Hhi].
      apply Z.leb_le in Hlo. apply Z.leb_le in Hhi. split.
      * intros H. exfalso. exact (Hraise _ H).
      * intros [_ Hout]. lia.
    + apply andb_false_iff in H4. apply andb_false_iff in H5.
      rewrite !Z.leb_gt in H4, H5. split.
      * intros [= <-]. split; [reflexivity | lia].
      * intros [-> _]. reflexivity.
Qed.

Lemma error_handler_returns_no_error_status_witness :
  error_handler (json_response 204 "No Content" JNull) =
  Ok (json_response 204 "No Content" JNull).
Proof.
  apply error_handler_returns_no_error_status.
  split; [reflexivity | left; simpl; lia].
Defined.

(** X9: a [ClientError] that gets constructed carries the response it was
    made from, a message that counts as true (the given one, else the
    default one), and as [meta] the [error] of the JSON object of the
    response, which counts as true; constructing it never yields another
    kind of exception object. *)
Theorem client_error_carries_response (response : Response) (message : json)
    (e : exn) :
  ClientError_init response message = Ok e ->
  exists kvs errors,
    body response = Some (JObj kvs) /\
    Py.truthy (Py.get "error" kvs) = true /\
    e = ClientError (if Py.truthy message then message
                     else JStr ClientError_default_message)
          errors (Py.get "error" kvs) response /\
    Py.truthy (if Py.truthy message then message
               else JStr ClientError_default_message) = true.
Proof.
  unfold ClientError_init.
  destruct (_adapt_response response) as [[errors meta] | e'] eqn:Hadapt;
    [| discriminate].
  apply adapt_response_ok in Hadapt
    as (ct & kvs & _ & _ & Hbody & Herr & -> & _).
  simpl. intros [= <-]. exists kvs, errors.
  split; [exact Hbody |]. split; [exact Herr |].
  destruct (Py.truthy message) eqn:Hm; simpl; split; try reflexivity.
  exact Hm.
Qed.

Lemma client_error_carries_response_witness :
  let r := json_response 401 "Unauthorized"
             (JObj [("error", JStr "invalid_token")]) in
  exists kvs errors,
    body r = Some (JObj kvs) /\
    Py.truthy (Py.get "error" kvs) = true /\
    ClientError (JStr ClientError_default_message) [] (JStr "invalid_token") r =
    ClientError (JStr ClientError_default_message) errors (Py.get "error" kvs) r.
Proof.
  intros r.
  destruct (client_error_carries_response r JNull
              (ClientError (JStr ClientError_default_message) []
                 (JStr "invalid_token") r) eq_refl)
    as (kvs & errors & Hbody & Herr & He & _).
  exists kvs, errors. split; [exact Hbody |]. split; [exact Herr | exact He].
Defined.

(** X10: [ServerError] and [ClientError] are constructed from the same
    responses and fail on the same ones with the same exception; where
    [ClientError] keeps the list of details, [ServerError] keeps its
    first element, and both keep the same [meta]. *)
Theorem server_error_keeps_head_of_client_errors (response : Response)
    (message : json) :
  (forall e, ClientError_init response message = Raise e <->
             ServerError_init response message = Raise e) /\
  (forall client_message errors meta r,
     ClientError_init response message =
       Ok (ClientError client_message errors meta r) ->
     ServerError_init response message =
       Ok (ServerError (if Py.truthy message then message
                        else JStr ServerError_default_message)
             (head errors) meta response)).
Proof.
  unfold ClientError_init, ServerError_init, ServerError_adapt_response.
  destruct (_adapt_response response) as [[errors meta] | e']; simpl.
  - split.
    + intros e. split; discriminate.
    + intros ? ? ? ? [= _ <- <- _]. destruct (Py.truthy message); reflexivity.
  - split.
    + intros e. split; intros H; exact H.
    + discriminate.
Qed.

Lemma server_error_keeps_head_of_client_errors_witness :
  let r := json_response 503 "Service Unavailable"
             (JObj [("error", JStr "server_error");
                    ("error_detail", JArr [JObj [("a", JStr "x")];
                                           JObj [("b", JStr "y")]])]) in
  ServerError_init r JNull =
  Ok (ServerError (JStr ServerError_default_message)
        (Some (ErrorDetails "a" (JStr "x"))) (JStr "server_error") r).
Proof.
  intros r.
  destruct (server_error_keeps_head_of_client_errors r JNull) as [_ Hhead].
  exact (Hhead _ _ _ _ eq_refl).
Defined.

(** An entry that is the name of a key or a piece of text is no mapping:
    it adds no detail. *)
Lemma details_of_texts {A : Type} (text : A -> string) (l : list A) :
  flat_map details_of_entry (map (fun a => JStr (text a)) l) = [].
Proof. induction l as [| a l IH]; [reflexivity | exact IH]. Qed.

Lemma details_of_entries (entries : list json) :
  flat_map details_of_entry entries =
  map (fun kv => ErrorDetails (fst kv) (snd kv))
    (flat_map (fun entry => match entry with
                            | JObj items => items
                            | _ => []
                            end) entries).
Proof.
  induction entries as [| entry entries IH]; [reflexivity |].
  simpl. rewrite map_app, IH. f_equal. destruct entry; reflexivity.
Qed.

(** X11: [error_detail] shadows [error_description].  When the body has
    an [error_detail], the adapter looks at [error] and [error_detail]
    only: bodies that agree on these two give the same result, whatever
    their [error_description], their other keys and the status are, and
    no detail is then a bare description.  For an [error_detail] array
    the details are the [ErrorDetails] of the items of its mapping
    entries, parameter and title, in the order of the array; an
    [error_detail] of another type gives no detail when the adapter
    returns.  Only without [error_detail] is [error_description] the one
    detail. *)
Theorem error_detail_shadows_error_description (status : Z)
    (kvs : list (string * json)) :
  (Py.has_key "error_detail" kvs = true ->
   (forall status' kvs',
      Py.has_key "error_detail" kvs' = true ->
      Py.get "error_detail" kvs' = Py.get "error_detail" kvs ->
      Py.get "error" kvs' = Py.get "error" kvs ->
      _simple_response_to_error_adapter status' kvs' =
      _simple_response_to_error_adapter status kvs) /\
   (forall entries,
      Py.get "error_detail" kvs = JArr entries ->
      _simple_response_to_error_adapter status kvs =
      Ok (map (fun kv => ErrorDetails (fst kv) (snd kv))
            (flat_map (fun entry => match entry with
                                    | JObj items => items
                                    | _ => []
                                    end) entries),
          Py.get "error" kvs)) /\
   (forall errors meta,
      _simple_response_to_error_adapter status kvs = Ok (errors, meta) ->
      meta = Py.get "error" kvs /\
      (forall v, Description v ∉ errors) /\
      ((forall entries, Py.get "error_detail" kvs <> JArr entries) ->
       errors = []))) /\
  (Py.has_key "error_detail" kvs = false ->
   _simple_response_to_error_adapter status kvs =
   Ok (if Py.has_key "error_description" kvs
       then [Description (Py.get "error_description" kvs)] else [],
       Py.get "error" kvs)).
Proof.
  unfold _simple_response_to_error_adapter. split.
  - intros Hkey. rewrite Hkey. split; [| split].
    + intros status' kvs' Hkey' Hdetail Herror.
      rewrite Hkey', Hdetail, Herror. reflexivity.
    + intros entries Hentries. rewrite Hentries. simpl.
      rewrite details_of_entries. reflexivity.
    + intros errors meta. unfold of_builtin.
      destruct (Py.iter (Py.get "error_detail" kvs)) as [e | visited] eqn:Hiter;
        simpl; [discriminate |].
      intros [= <- <-]. split; [reflexivity |]. split.
      * intros v Hv.
        apply list_elem_of_In, in_flat_map in Hv as (entry & _ & Hv).
        destruct entry; simpl in Hv; try contradiction.
        apply in_map_iff in Hv as (kv & Hkv & _). discriminate Hkv.
      * intros Hother.
        destruct (Py.get "error_detail" kvs) as [| | | | t | entries | items];
          try discriminate Hiter; injection Hiter as <-.
        -- apply (details_of_texts (fun c => String c "")).
        -- destruct (Hother entries eq_refl).
        -- apply (details_of_texts fst).
  - intros Hkey. rewrite Hkey.
    destruct (Py.has_key "error_description" kvs); reflexivity.
Qed.

Lemma error_detail_shadows_error_description_witness :
  let detail := JArr [JObj [("start_lat", JStr "is required");
                            ("start_lng", JStr "is required")];
                      JStr "see the documentation";
                      JObj [("ride_type", JStr "is unknown")]] in
  let described := [("error", JStr "invalid_request");
                    ("error_description", JStr "start_lat is required");
                    ("error_detail", detail)] in
  let bare := [("error_detail", detail); ("error", JStr "invalid_request")] in
  _simple_response_to_error_adapter 422 described =
    Ok ([ErrorDetails "start_lat" (JStr "is required");
         ErrorDetails "start_lng" (JStr "is required");
         ErrorDetails "ride_type" (JStr "is unknown")],
        JStr "invalid_request") /\
  _simple_response_to_error_adapter 400 bare =
    _simple_response_to_error_adapter 422 described.
Proof.
  intros detail described bare.
  destruct (error_detail_shadows_error_description 422 described)
    as [Hdetail _].
  destruct (Hdetail eq_refl) as (Hsame & Harray & _). split.
  - exact (Harray _ eq_refl).
  - apply Hsame; reflexivity.
Defined.

(** *** What a refresh keeps and what it can raise ([auth.py], [client.py]) *)

(** A refresh that returns keeps the identity of the credential. *)
Lemma refresh_keeps_identity (credential : OAuth2Credential) (w w' : World)
    (refreshed : Session) :
  refresh_access_token credential w = (Ok refreshed, w') ->
  client_id (oauth2credential refreshed) = client_id credential /\
  grant_type (oauth2credential refreshed) = grant_type credential /\
  client_secret (oauth2credential refreshed) = client_secret credential.
Proof.
  unfold refresh_access_token.
  destruct (String.eqb (grant_type credential) AUTHORIZATION_CODE_GRANT);
    [| destruct (String.eqb (grant_type credential) CLIENT_CREDENTIAL_GRANT)].
  3: discriminate.
  all: rewrite token_exchange_run; cbv zeta;
    match goal with
    | |- context [status_code ?r =? 200] => destruct (status_code r =? 200)
    end;
    [| unfold raise_from; destruct (ClientError_init _ _); discriminate];
    match goal with
    | |- context [make_from_response ?r ?g ?c ?s ?v] =>
        pose proof (make_from_response_fields r g c s v) as Hfields;
        destruct (make_from_response r g c s v) as [[c' | e] w2];
        [| discriminate]
    end;
    intros [= <- _]; destruct (Hfields w2 c' eq_refl) as (? & ? & ? & _);
    repeat split; assumption.
Qed.

(** X12: whatever a method of the client does and however it ends, the
    client keeps its host and the client id, grant type and client secret
    of the credential it holds; while the credential is not stale it
    keeps the very same session. *)
Theorem api_call_keeps_client_identity (m : api_method)
    (self : LyftRidesClient) (w : World) :
  let self' := snd (fst (invoke m self w)) in
  let c := oauth2credential (session self) in
  let c' := oauth2credential (session self') in
  api_host self' = api_host self /\
  client_id c' = client_id c /\ grant_type c' = grant_type c /\
  client_secret c' = client_secret c /\
  (clock w (ticks w) < expires_in_seconds c -> self' = self).
Proof.
  destruct (invoke_is_api_call m) as (method & target & args & ->).
  unfold _api_call. rewrite refresh_oauth_credential_run.
  destruct (Z.leb_spec (expires_in_seconds (oauth2credential (session self)))
              (clock w (ticks w))) as [Hstale | Hfresh].
  - pose proof (refresh_keeps_identity (oauth2credential (session self))
                  (tick w)) as Hkeep.
    destruct (refresh_access_token _ (tick w)) as [[refreshed | e] w2]; simpl.
    + destruct (Hkeep w2 refreshed eq_refl) as (? & ? & ?).
      repeat split; try assumption; try (intros; lia).
    + repeat split; try (intros; lia).
  - simpl. repeat split.
Qed.

Lemma api_call_keeps_client_identity_witness :
  let self := LyftRidesClient_init
                (mkSession (sample_credential 2000 CLIENT_CREDENTIAL_GRANT)
                   OAUTH_TOKEN_TYPE) in
  let w := world_with 1000 (json_response 200 "OK" token_body) in
  snd (fst (invoke (GetRideDetails "ride-7") self w)) = self.
Proof.
  intros self w.
  destruct (api_call_keeps_client_identity (GetRideDetails "ride-7") self w)
    as (_ & _ & _ & _ & Hsame).
  apply Hsame. simpl. lia.
Defined.

(** X13: of the library's own errors, a refresh raises only these:
    [LyftIllegalState] for a grant type without refresh (nothing sent),
    and, for a token request not answered with 200, the [ClientError]
    with the "Failed to request access token" message or the
    [UnknownHttpError] of that response, in both cases before the clock is
    read.  In particular the status check of [make_from_response] never
    fires inside a refresh. *)
Theorem refresh_raises_only (credential : OAuth2Credential) (w w' : World)
    (e : exn) :
  refresh_access_token credential w = (Raise e, w') ->
  is_APIError e = true ->
  (refresh_data w credential = None /\ w' = w /\
   e = LyftIllegalState (grant_type credential +:+
                          " Grant Type does not support Refresh Tokens.")) \/
  (exists data,
     refresh_data w credential = Some data /\
     let response := server w (log w) ACCESS_TOKEN_PATH data in
     status_code response <> 200 /\ ticks w' = ticks w /\
     ((exists errors meta,
         e = ClientError (token_request_message response) errors meta response)
      \/ e = UnknownHttpError response)).
Proof.
  unfold refresh_access_token, refresh_data.
  destruct (String.eqb (grant_type credential) AUTHORIZATION_CODE_GRANT);
    [| destruct (String.eqb (grant_type credential) CLIENT_CREDENTIAL_GRANT)].
  3: { intros [= <- <-] _. left. repeat split. }
  all: rewrite token_exchange_run; cbv zeta; intros Hrun Hapi; right;
    eexists; (split; [reflexivity |]); cbv zeta;
    match type of Hrun with
    | context [status_code ?r =? 200] =>
        set (response := r) in *;
        destruct (Z.eqb_spec (status_code response) 200) as [H200 | Hnot]
    end.
  1, 3: exfalso;
    match type of Hrun with
    | context [make_from_response ?r ?g ?c ?s ?v] =>
        pose proof (make_from_response_200_raises_builtin r g c s v) as Hb;
        destruct (make_from_response r g c s v) as [[c' | e'] w2];
        [discriminate |]
    end;
    injection Hrun as <- _; rewrite (Hb w2 e' H200 eq_refl) in Hapi;
    discriminate.
  all: split; [exact Hnot |]; unfold raise_from, ClientError_init in Hrun;
    rewrite token_request_message_truthy in Hrun; simpl negb in Hrun;
    cbv iota in Hrun;
    destruct (_adapt_response response) as [[errors meta] | e'] eqn:Hadapt;
    simpl in Hrun; injection Hrun as <- <-;
    (split; [reflexivity |]);
    [ left; eexists _, _; reflexivity
    | right; exact (adapt_response_api_error _ _ Hadapt Hapi) ].
Qed.

Lemma refresh_raises_only_witness :
  let r := json_response 401 "Unauthorized"
             (JObj [("error", JStr "invalid_client")]) in
  let w := world_with 1000 r in
  let c := mkCredential "client-1" (JStr "tok-1") 1000 SNone
             AUTHORIZATION_CODE_GRANT (Some "secret-1") (JStr "ref-1") in
  exists data,
    refresh_data w c = Some data /\
    status_code (server w (log w) ACCESS_TOKEN_PATH data) <> 200 /\
    ticks (snd (refresh_access_token c w)) = ticks w.
Proof.
  intros r w c.
  destruct (refresh_access_token c w) as [[refreshed | e] w'] eqn:Hrun;
    [discriminate Hrun |].
  assert (Hapi : is_APIError e = true)
    by (injection Hrun as <- _; reflexivity).
  destruct (refresh_raises_only c w w' e Hrun Hapi)
    as [(Hnone & _) | (data & Hdata & Hnot & Hticks & _)].
  - discriminate Hnone.
  - exists data. split; [exact Hdata |]. split; [exact Hnot | exact Hticks].
Defined.

(** A call on a fresh credential: one clock reading, one request. *)
Lemma api_call_fresh (method target : string) args (self : LyftRidesClient)
    (w : World) :
  clock w (ticks w) < expires_in_seconds (oauth2credential (session self)) ->
  let request := mkRequest (session self) (api_host self) method target args in
  _api_call method target args self w =
  (api w (log w) request, self, record (Execute request) (tick w)).
Proof.
  intros Hfresh request. unfold _api_call.
  rewrite refresh_oauth_credential_run.
  replace (_ <=? _) with false by (symmetry; apply Z.leb_gt; exact Hfresh).
  reflexivity.
Qed.

(** A call on a stale credential whose refresh is answered well. *)
Lemma api_call_refreshed (method target : string) args (self : LyftRidesClient)
    (w : World) data kvs scope seconds :
  let credential := oauth2credential (session self) in
  expires_in_seconds credential <= clock w (ticks w) ->
  refresh_data w credential = Some data ->
  token_response w (server w (log w) ACCESS_TOKEN_PATH data) kvs scope seconds ->
  let refreshed :=
    mkSession (granted kvs scope seconds (clock w (S (ticks w)))
                 (grant_type credential) (client_id credential)
                 (client_secret credential)) OAUTH_TOKEN_TYPE in
  let request := mkRequest refreshed (api_host self) method target args in
  let w2 := tick (record (Post ACCESS_TOKEN_PATH
                            (Some (client_id credential),
                             client_secret credential) data) (tick w)) in
  _api_call method target args self w =
  (api w (log w2) request, mkClient refreshed (api_host self),
   record (Execute request) w2).
Proof.
  intros credential Hstale Hdata Hr refreshed request w2. unfold _api_call.
  rewrite refresh_oauth_credential_run. fold credential.
  replace (_ <=? _) with true by (symmetry; apply Z.leb_le; exact Hstale).
  rewrite (refresh_access_token_ok credential (tick w) data kvs scope seconds
             Hdata Hr).
  reflexivity.
Qed.

(** X14: two calls in a row on a stale credential refresh once.  When
    the refresh of the first call is answered by an acceptable token
    response and the clock has not reached the new expiry at the second
    call, the second call keeps the session, and all that was sent is one
    token request followed by the two domain requests, both built from
    the refreshed session. *)
Theorem second_call_reuses_refreshed_session (m1 m2 : api_method)
    (self : LyftRidesClient) (w : World) (data : token_args)
    (kvs : list (string * json)) (scope : string) (seconds : Z) :
  let credential := oauth2credential (session self) in
  let auth := (Some (client_id credential), client_secret credential) in
  let run1 := invoke m1 self w in
  let run2 := invoke m2 (snd (fst run1)) (snd run1) in
  expires_in_seconds credential <= clock w (ticks w) ->
  refresh_data w credential = Some data ->
  token_response w (server w (log w) ACCESS_TOKEN_PATH data) kvs scope seconds ->
  clock w (S (S (ticks w))) < clock w (S (ticks w)) + seconds ->
  snd (fst run2) = snd (fst run1) /\
  access_token (oauth2credential (session (snd (fst run1)))) =
    Py.get "access_token" kvs /\
  exists request1 request2,
    log (snd run2) =
      log w ++ [Post ACCESS_TOKEN_PATH auth data;
                Execute request1; Execute request2] /\
    auth_session request1 = session (snd (fst run1)) /\
    auth_session request2 = session (snd (fst run1)).
Proof.
  intros credential auth run1 run2 Hstale Hdata Hr Hclock.
  subst run2 run1.
  destruct (invoke_is_api_call m1) as (method1 & target1 & args1 & ->).
  destruct (invoke_is_api_call m2) as (method2 & target2 & args2 & ->).
  rewrite (api_call_refreshed method1 target1 args1 self w data kvs scope
             seconds Hstale Hdata Hr).
  cbn [fst snd]. rewrite api_call_fresh by exact Hclock.
  cbn [fst snd]. split; [reflexivity |]. split; [reflexivity |].
  eexists _, _. split.
  - cbn [log record tick]. rewrite <- !app_assoc. reflexivity.
  - split; reflexivity.
Qed.

Lemma second_call_reuses_refreshed_session_witness :
  let w := world_with 1000 (json_response 200 "OK" token_body) in
  let self := LyftRidesClient_init
                (mkSession (sample_credential 1000 AUTHORIZATION_CODE_GRANT)
                   OAUTH_TOKEN_TYPE) in
  let run1 := invoke GetUserProfile self w in
  snd (fst (invoke (GetRideReceipt "ride-7") (snd (fst run1)) (snd run1))) =
  snd (fst run1).
Proof.
  intros w self run1.
  refine (proj1 (second_call_reuses_refreshed_session GetUserProfile
                   (GetRideReceipt "ride-7") self w _ _ "public rides.read"
                   3600 _ eq_refl _ _)).
  - simpl. lia.
  - repeat split; reflexivity.
  - simpl. lia.
Defined.

(** *** The store and the scopes ([examples/], [auth.py]) *)

(** X15: a dump and a load keep what the refresh of an Authorization-Code
    credential does.  The credential the flow dumps holds its scopes as a
    set; the store gets them as a list, in the order the set was visited
    in when it was dumped, and the loaded credential holds that list.
    Whatever that order was, a refresh of the loaded credential runs as
    a refresh of the dumped one does: the same single request, for
    [refresh_token] and without scopes, and the same outcome. *)
Theorem reloaded_credential_refreshes_alike (c : OAuth2Credential)
    (s : gset string) (stored : credential_data) (wd w : World) :
  scopes c = SSet s ->
  grant_type c = AUTHORIZATION_CODE_GRANT ->
  dump_credential wd c = Ok stored ->
  exists client,
    create_lyft_client stored w = (Ok client, tick w) /\
    let c' := oauth2credential (session client) in
    scopes c' = SList (set_order wd s) /\
    forall w',
      refresh_access_token c' w' = refresh_access_token c w' /\
      log (snd (refresh_access_token c' w')) =
        log w' ++ [Post ACCESS_TOKEN_PATH (Some (client_id c), client_secret c)
                     (mkArgs REFRESH_TOKEN (Some (client_id c))
                        (client_secret c) SNone None (refresh_token c))].
Proof.
  intros Hscopes Hgt. unfold dump_credential. rewrite Hscopes. simpl.
  intros [= <-]. eexists. split; [reflexivity |]. cbv zeta.
  cbn [session oauth2credential LyftRidesClient_init scopes].
  split; [reflexivity |]. intros w'. split.
  - unfold refresh_access_token.
    cbn [grant_type client_id client_secret scopes refresh_token
         cd_grant_type cd_client_id cd_client_secret cd_scopes
         cd_refresh_token].
    rewrite Hgt. reflexivity.
  - rewrite refresh_access_token_log. unfold refresh_data.
    cbn [grant_type client_id client_secret scopes refresh_token
         cd_grant_type cd_client_id cd_client_secret cd_scopes
         cd_refresh_token].
    rewrite Hgt. reflexivity.
Qed.

Lemma reloaded_credential_refreshes_alike_witness :
  let c := sample_credential 4600 AUTHORIZATION_CODE_GRANT in
  let wd := reversed_world 900 (json_response 200 "OK" token_body) in
  let w := world_with 1000 (json_response 200 "OK" token_body) in
  exists stored client,
    dump_credential wd c = Ok stored /\
    create_lyft_client stored w = (Ok client, tick w) /\
    scopes (oauth2credential (session client)) =
      SList (rev (elements ({[ "public"; "rides.read" ]} : gset string))) /\
    refresh_access_token (oauth2credential (session client)) w =
      refresh_access_token c w.
Proof.
  intros c wd w.
  destruct (dump_credential wd c) as [stored | e] eqn:Hdump;
    [| discriminate Hdump].
  destruct (reloaded_credential_refreshes_alike c _ stored wd w eq_refl eq_refl
              Hdump) as (client & Hload & Hscopes & Hrefresh).
  exists stored, client. split; [reflexivity |]. split; [exact Hload |].
  split; [exact Hscopes | exact (proj1 (Hrefresh w))].
Defined.

(** *** Staleness over time ([session.py]) *)

Lemma clock_monotone (clock : nat -> Z) (n m : nat) :
  (forall k, clock k <= clock (S k)) -> (n <= m)%nat -> clock n <= clock m.
Proof.
  intros Hstep Hle. induction Hle as [| m Hle IH]; [lia |].
  specialize (Hstep m). lia.
Qed.

(** X16: under a clock that never runs backwards a credential crosses
    its expiry once: a query that finds it stale is followed by stale
    answers only, and a query that finds it fresh was preceded by fresh
    answers only. *)
Theorem stale_credentials_stay_stale (c : OAuth2Credential) (w w' : World) :
  (forall k, clock w k <= clock w (S k)) ->
  clock w' = clock w -> (ticks w <= ticks w')%nat ->
  (fst (is_stale c w) = Ok true -> fst (is_stale c w') = Ok true) /\
  (fst (is_stale c w') = Ok false -> fst (is_stale c w) = Ok false).
Proof.
  intros Hstep Hclock Hticks. rewrite !is_stale_reads_clock. cbn [fst].
  rewrite Hclock.
  pose proof (clock_monotone (clock w) _ _ Hstep Hticks) as Hmono.
  split; intros [= H]; f_equal.
  - apply Z.leb_le. apply Z.leb_le in H. lia.
  - apply Z.leb_gt. apply Z.leb_gt in H. lia.
Qed.

Lemma stale_credentials_stay_stale_witness :
  let w := world_with 4600 (json_response 200 "OK" token_body) in
  fst (is_stale (sample_credential 4600 CLIENT_CREDENTIAL_GRANT)
         (tick (tick w))) = Ok true.
Proof.
  intros w.
  refine (proj1 (stale_credentials_stay_stale
                   (sample_credential 4600 CLIENT_CREDENTIAL_GRANT) w
                   (tick (tick w)) _ eq_refl _) eq_refl).
  - intros k. simpl. lia.
  - simpl. lia.
Defined.

(** *** Revoking ([auth.py], [client.py]) *)

(** X17: [revoke_oauth_credential] posts the held access token to the
    revoke endpoint and does nothing else: it reads no clock, sends no
    token request, refreshes nothing and leaves the client as it is,
    whether the revocation succeeded (status 200, exactly then it
    returns) or not.  So the next call on a credential that is not stale
    is still built from the revoked session. *)
Theorem revoke_leaves_the_session_in_place (self : LyftRidesClient)
    (rw : RevokeWorld) (m : api_method) :
  let credential := oauth2credential (session self) in
  let response := revoke_endpoint rw (revocations rw) REVOKE_PATH
                    (access_token credential) in
  let run := revoke_oauth_credential self rw in
  snd (fst run) = self /\
  base (snd run) = base rw /\
  revocations (snd run) = revocations rw ++ [access_token credential] /\
  (fst (fst run) = Ok tt <-> status_code response = 200) /\
  (clock (base rw) (ticks (base rw)) < expires_in_seconds credential ->
   exists request,
     log (snd (invoke m (snd (fst run)) (base (snd run)))) =
       log (base rw) ++ [Execute request] /\
     auth_session request = session self).
Proof.
  intros credential response run. subst run.
  unfold revoke_oauth_credential, revoke_access_token. fold credential.
  cbv zeta. fold response.
  destruct (Z.eqb_spec (status_code response) 200) as [H200 | Hnot];
    cbn [fst snd base revocations].
  all: split; [reflexivity |]; split; [reflexivity |]; split; [reflexivity |].
  all: split.
  - split; [intros _; exact H200 | reflexivity].
  - intros Hfresh.
    destruct (invoke_is_api_call m) as (method & target & args & ->).
    rewrite api_call_fresh by exact Hfresh. eexists. split; reflexivity.
  - split; [| intros H; contradiction].
    unfold raise_from. destruct (ClientError_init _ _); discriminate.
  - intros Hfresh.
    destruct (invoke_is_api_call m) as (method & target & args & ->).
    rewrite api_call_fresh by exact Hfresh. eexists. split; reflexivity.
Qed.

Lemma revoke_leaves_the_session_in_place_witness :
  let self := LyftRidesClient_init
                (mkSession (sample_credential 4600 AUTHORIZATION_CODE_GRANT)
                   OAUTH_TOKEN_TYPE) in
  let rw := mkRevokeWorld (world_with 1000 (json_response 200 "OK" token_body))
              (fun _ _ _ => mkResponse 200 "OK" None None) [] in
  fst (fst (revoke_oauth_credential self rw)) = Ok tt /\
  exists request,
    log (snd (invoke GetUserProfile
                (snd (fst (revoke_oauth_credential self rw)))
                (base (snd (revoke_oauth_credential self rw))))) =
      [Execute request] /\
    access_token (oauth2credential (auth_session request)) = JStr "tok-1".
Proof.
  intros self rw.
  destruct (revoke_leaves_the_session_in_place self rw GetUserProfile)
    as (_ & _ & _ & Hreturns & Hnext).
  split; [apply Hreturns; reflexivity |].
  destruct (Hnext ltac:(simpl; lia)) as (request & Hlog & Hsession).
  exists request. split; [exact Hlog |]. rewrite Hsession. reflexivity.
Defined.

(** *** Sandbox secrets ([auth.py]) *)

(** X18: the client secret a Client-Credentials grant was constructed
    with, prefixed in sandbox mode, is the one its token request sends,
    the one the returned credential stores, and the one a later refresh of
    that credential sends again. *)
Theorem sandbox_secret_follows_the_credential (SANDBOX_MODE_PREFIX app_id
    app_secret : string) (scopes : scopes_value) (is_sandbox_mode : bool)
    (w : World) :
  let self := ClientCredentialGrant_init SANDBOX_MODE_PREFIX app_id
                app_secret scopes is_sandbox_mode in
  let secret := if is_sandbox_mode
                then SANDBOX_MODE_PREFIX +:+ "-" +:+ app_secret
                else app_secret in
  let data := mkArgs CLIENT_CREDENTIAL_GRANT (Some app_id) (Some secret)
                (space_joined w scopes) None JNull in
  log (snd (ClientCredentialGrant_get_session self w)) =
    log w ++ [Post ACCESS_TOKEN_PATH (Some app_id, Some secret) data] /\
  (forall kvs scope seconds,
     token_response w (server w (log w) ACCESS_TOKEN_PATH data) kvs scope seconds ->
     exists granted_session,
       fst (ClientCredentialGrant_get_session self w) = Ok granted_session /\
       client_secret (oauth2credential granted_session) = Some secret /\
       forall w',
       exists sent,
         log (snd (refresh_access_token (oauth2credential granted_session) w')) =
           log w' ++ [Post ACCESS_TOKEN_PATH (Some app_id, Some secret) sent] /\
         arg_client_secret sent = Some secret /\
         arg_grant_type sent = CLIENT_CREDENTIAL_GRANT).
Proof.
  intros self secret data.
  assert (Hsecret : ccg_client_secret self = secret)
    by (destruct is_sandbox_mode; reflexivity).
  unfold ClientCredentialGrant_get_session. rewrite token_exchange_run.
  cbv zeta. change (ccg_client_id self) with app_id.
  change (ccg_scopes self) with scopes. rewrite Hsecret. fold data.
  set (response := server w (log w) ACCESS_TOKEN_PATH data).
  set (w1 := record _ w). split.
  - destruct (status_code response =? 200); [| reflexivity].
    pose proof (make_from_response_log response CLIENT_CREDENTIAL_GRANT
                  app_id (Some secret) w1) as Hlog.
    destruct (make_from_response _ _ _ _ w1) as [[c | e] w2]; exact Hlog.
  - intros kvs scope seconds Hr. pose proof Hr as (H200 & _).
    rewrite H200. simpl Z.eqb. cbv iota.
    rewrite (make_from_response_200 _ _ _ _ _ _ _ w1 Hr).
    eexists. split; [reflexivity |]. split; [reflexivity |].
    intros w'. eexists. rewrite refresh_access_token_log.
    split; [reflexivity |]. split; reflexivity.
Qed.

Lemma sandbox_secret_follows_the_credential_witness :
  let self := ClientCredentialGrant_init "SANDBOX" "client-1" "secret-1"
                (SList ["public"]) true in
  let w := world_with 1000 (json_response 200 "OK" token_body) in
  exists granted_session,
    fst (ClientCredentialGrant_get_session self w) = Ok granted_session /\
    client_secret (oauth2credential granted_session) = Some "SANDBOX-secret-1".
Proof.
  intros self w.
  destruct (sandbox_secret_follows_the_credential "SANDBOX" "client-1"
              "secret-1" (SList ["public"]) true w) as [_ Hgranted].
  destruct (Hgranted _ "public rides.read" 3600
              ltac:(repeat split; reflexivity))
    as (granted_session & Hrun & Hsecret & _).
  exists granted_session. split; assumption.
Defined.
